(** * Trading212 MCP server: a shallow embedding of [trading212_server.py]

    The server is a thin bridge between a tool-invocation interface and the
    Trading212 REST API.  This development embeds

    - the Python values and builtins the server relies on ([str] methods,
      [int()], [float()], number formatting, JSON values),
    - the configuration resolver, the HTTP bridge [make_request],
      [format_currency] and the seventeen tool operations,

    and proves the properties stated about them.

    Modelling conventions.
    - A Python [str] is a [string]: the bytes of its UTF-8 encoding.  The
      builtins [lower], [upper], [strip], [int()] and [float()] are embedded
      on the ASCII range, where they agree with CPython; bytes above 127 are
      left unchanged by [lower]/[upper], are not white space and are not
      digits.
    - A Python [float] is an IEEE-754 binary64 value, [spec_float] with
      precision 53 and maximal exponent 1024.
    - An exception is a value [exn] of an error monad; the network is an
      oracle together with the list of requests issued so far.
    - Logging ([logger.info], [logger.error]) never affects a result and is
      left out. *)

From Stdlib Require Import ZArith List String Ascii Bool Lia SpecFloat.
Import ListNotations.

Local Open Scope string_scope.
Local Open Scope Z_scope.
Local Set Warnings "-register-all".

(* ================================================================== *)
(** * Python strings *)
(* ================================================================== *)

Module PyStr.

(** The newline character, written [\n] in the source. *)
Definition nl : string := String (ascii_of_nat 10) EmptyString.

Definition code (c : ascii) : Z := Z.of_nat (nat_of_ascii c).

(** [str.isspace] on the ASCII range: TAB, LF, VT, FF, CR, the separators
    0x1c-0x1f and the space. *)
Definition is_space (c : ascii) : bool :=
  let n := code c in
  ((9 <=? n) && (n <=? 13)) || ((28 <=? n) && (n <=? 31)) || (n =? 32).

Definition is_upper (c : ascii) : bool :=
  let n := code c in (65 <=? n) && (n <=? 90).

Definition is_lower (c : ascii) : bool :=
  let n := code c in (97 <=? n) && (n <=? 122).

Definition is_digit (c : ascii) : bool :=
  let n := code c in (48 <=? n) && (n <=? 57).

Definition lower_char (c : ascii) : ascii :=
  if is_upper c then ascii_of_nat (nat_of_ascii c + 32) else c.

Definition upper_char (c : ascii) : ascii :=
  if is_lower c then ascii_of_nat (nat_of_ascii c - 32) else c.

Fixpoint map_chars (f : ascii -> ascii) (s : string) : string :=
  match s with
  | EmptyString => EmptyString
  | String c s' => String (f c) (map_chars f s')
  end.

(** [s.lower()] and [s.upper()]. *)
Definition lower : string -> string := map_chars lower_char.
Definition upper : string -> string := map_chars upper_char.

Fixpoint lstrip (s : string) : string :=
  match s with
  | EmptyString => EmptyString
  | String c s' => if is_space c then lstrip s' else s
  end.

Fixpoint rev_onto (s acc : string) : string :=
  match s with
  | EmptyString => acc
  | String c s' => rev_onto s' (String c acc)
  end.

Definition rev (s : string) : string := rev_onto s EmptyString.

Definition rstrip (s : string) : string := rev (lstrip (rev s)).

(** [s.strip()]. *)
Definition strip (s : string) : string := rstrip (lstrip s).

(** Truth value of a string: [bool(s)], false exactly on the empty string. *)
Definition truthy (s : string) : bool :=
  match s with EmptyString => false | String _ _ => true end.

(** [s.startswith(p)]. *)
Definition startswith (s p : string) : bool := prefix p s.

(** [sub in s]: [sub] occurs in [s] as a contiguous substring. *)
Fixpoint contains (sub s : string) : bool :=
  prefix sub s ||
  match s with
  | EmptyString => false
  | String _ s' => contains sub s'
  end.

(** [s.endswith(p)]. *)
Definition endswith (s p : string) : bool := prefix (rev p) (rev s).


(** Concatenation of a list of pieces, as an f-string does. *)
Fixpoint cat (l : list string) : string :=
  match l with
  | [] => EmptyString
  | s :: l' => s ++ cat l'
  end.

Definition digit_char (d : Z) : ascii := ascii_of_nat (48 + Z.to_nat d).

(** Decimal digits of a non-negative number, most significant first.  The
    fuel is the number of binary digits, which bounds the decimal ones. *)
Fixpoint digits_fuel (fuel : nat) (n : Z) (acc : string) : string :=
  match fuel with
  | O => acc
  | S fuel' =>
      let acc' := String (digit_char (n mod 10)) acc in
      if n <? 10 then acc' else digits_fuel fuel' (n / 10) acc'
  end.

Definition digits (n : Z) : string :=
  digits_fuel (S (Z.to_nat (Z.log2 n))) n EmptyString.

(** [str(n)] for an [int]. *)
Definition of_int (n : Z) : string :=
  if n <? 0 then String "-"%char (digits (- n)) else digits n.

End PyStr.

(* ================================================================== *)
(** * Python floats: IEEE-754 binary64 *)
(* ================================================================== *)

Module PyFloat.

Definition prec : Z := 53.
Definition emax : Z := 1024.

Definition float : Type := spec_float.

(** The canonical representation of a value: the mantissa on 53 bits (fewer
    for subnormal values).  The operations of [SpecFloat] expect it. *)
Definition canon (f : float) : float :=
  match f with
  | S754_finite s m e => binary_round prec emax s m e
  | _ => f
  end.

Definition mul (x y : float) : float := SFmul prec emax (canon x) (canon y).
Definition div (x y : float) : float := SFdiv prec emax (canon x) (canon y).
Definition add (x y : float) : float := SFadd prec emax (canon x) (canon y).

(** The binary64 value nearest to [n / d], ties to even. *)
Definition of_ratio (neg : bool) (n d : positive) : float :=
  SFdiv prec emax (S754_finite neg n 0) (S754_finite false d 0).

(** The binary64 value nearest to an integer, ties to even; an infinity when
    the integer is out of range. *)
Definition of_int (z : Z) : float :=
  binary_normalize prec emax z 0 false.

(** The binary64 value nearest to [m * 10 ^ e10]. *)
Definition of_decimal (neg : bool) (m : Z) (e10 : Z) : float :=
  match m with
  | Zpos p =>
      if 0 <=? e10 then of_ratio neg (p * Z.to_pos (10 ^ e10)) 1
      else of_ratio neg p (Z.to_pos (10 ^ (- e10)))
  | _ => S754_zero neg
  end.

Definition is_zero (f : float) : bool :=
  match f with S754_zero _ => true | _ => false end.

Definition is_inf (f : float) : bool :=
  match f with S754_infinity _ => true | _ => false end.

Definition sign (f : float) : bool :=
  match f with
  | S754_zero s | S754_infinity s | S754_finite s _ _ => s
  | S754_nan => false
  end.

Definition eqb (x y : float) : bool := SFeqb (canon x) (canon y).
Definition ltb (x y : float) : bool := SFltb (canon x) (canon y).

(** Exact comparison of a float with an integer, as Python compares an
    [int] with a [float]; [None] when the float is a NaN. *)
Definition compare_int (f : float) (z : Z) : option comparison :=
  match f with
  | S754_nan => None
  | S754_infinity s => Some (if s then Lt else Gt)
  | S754_zero _ => Some (0 ?= z)
  | S754_finite s m e =>
      let v := if s then Zneg m else Zpos m in
      Some (if 0 <=? e then (v * 2 ^ e ?= z) else (v ?= z * 2 ^ (- e)))
  end.

(** ** Fixed-point formatting: the format specs [.2f], [+.2f] and [,.2f] *)

Definition round_half_even_div (n d : Z) : Z :=
  let q := n / d in
  let r := n mod d in
  match 2 * r ?= d with
  | Lt => q
  | Gt => q + 1
  | Eq => if Z.even q then q else q + 1
  end.

(** [|f| * 100] rounded to the nearest integer, ties to even, computed on
    the exact binary value of [f]. *)
Definition hundredths (f : float) : Z :=
  match f with
  | S754_finite _ m e =>
      if 0 <=? e then Zpos m * 2 ^ e * 100
      else round_half_even_div (Zpos m * 100) (2 ^ (- e))
  | _ => 0
  end.

Definition pad2 (n : Z) : string :=
  String (PyStr.digit_char (n / 10)) (String (PyStr.digit_char (n mod 10)) EmptyString).

(** Insert a comma between groups of three digits, from the right:
    [group3_rev] works on the reversed digit string. *)
Fixpoint group3_rev (s : string) (k : nat) (acc : string) : string :=
  match s with
  | EmptyString => acc
  | String c s' =>
      match k with
      | 3%nat => group3_rev s' 1%nat (String c (String ","%char acc))
      | _ => group3_rev s' (S k) (String c acc)
      end
  end.

Definition group3 (s : string) : string := group3_rev (PyStr.rev s) 0%nat EmptyString.

Definition sign_prefix (plus neg : bool) : string :=
  if neg then "-" else if plus then "+" else "".

(** [format(f, spec)] for the specs [.2f] ([plus = false], [comma = false]),
    [+.2f] ([plus = true]) and [,.2f] ([comma = true]). *)
Definition format_f2 (plus comma : bool) (f : float) : string :=
  match f with
  | S754_nan => sign_prefix plus false ++ "nan"
  | S754_infinity s => sign_prefix plus s ++ "inf"
  | _ =>
      let n := hundredths f in
      let ip := PyStr.digits (n / 100) in
      sign_prefix plus (sign f)
        ++ (if comma then group3 ip else ip) ++ "." ++ pad2 (n mod 100)
  end.

(** ** [repr(f)]: the shortest decimal string that reads back as [f] *)

(** The exact value of a positive finite float, as a fraction. *)
Definition fraction (m : positive) (e : Z) : Z * Z :=
  if 0 <=? e then (Zpos m * 2 ^ e, 1) else (Zpos m, 2 ^ (- e)).

(** [10 ^ k <= n / d]. *)
Definition ge_pow10 (nd : Z * Z) (k : Z) : bool :=
  let '(n, d) := nd in
  if 0 <=? k then d * 10 ^ k <=? n else d <=? n * 10 ^ (- k).

Fixpoint decpt_from (fuel : nat) (nd : Z * Z) (k : Z) : Z :=
  match fuel with
  | O => k
  | S fuel' => if ge_pow10 nd k then decpt_from fuel' nd (k + 1) else k
  end.

(** The position of the decimal point: the [k] with
    [10 ^ (k - 1) <= n / d < 10 ^ k], found from a binary-logarithm
    estimate that is at most four below it. *)
Definition decpt (nd : Z * Z) : Z :=
  let '(n, d) := nd in
  decpt_from 4 nd ((Z.log2 n - Z.log2 d - 1) * 30103 / 100000).

(** [n / d / 10 ^ p] as a fraction. *)
Definition scale10 (nd : Z * Z) (p : Z) : Z * Z :=
  let '(n, d) := nd in
  if 0 <=? p then (n, d * 10 ^ p) else (n * 10 ^ (- p), d).

(** Search for the least number [n] of significant digits such that one of
    the two [n]-digit decimals around the value reads back as [f]; of two
    that do, the nearer one is taken.  Returns the digits as a number and
    the position of the decimal point. *)
Fixpoint shortest (fuel : nat) (n : Z) (nd : Z * Z) (k : Z) (f : float) : Z * Z :=
  let p := k - n in
  let '(a, b) := scale10 nd p in
  let lo := a / b in
  let r := a mod b in
  let hi := lo + 1 in
  let lo_ok := eqb (of_decimal false lo p) f in
  let hi_ok := negb (r =? 0) && eqb (of_decimal false hi p) f in
  let pick_hi :=
    hi_ok && (negb lo_ok || (b <? 2 * r) || ((2 * r =? b) && Z.odd lo)) in
  match fuel with
  | S fuel' =>
      if lo_ok || hi_ok then
        if pick_hi then (if hi =? 10 ^ n then (1, k + 1) else (hi, k))
        else (lo, k)
      else shortest fuel' (n + 1) nd k f
  | O => (lo, k)
  end.

Fixpoint zeros (n : nat) : string :=
  match n with
  | O => EmptyString
  | S n' => String "0"%char (zeros n')
  end.

Definition exponent_digits (e : Z) : string :=
  let a := Z.abs e in
  (if e <? 0 then "-" else "+") ++ (if a <? 10 then "0" else "") ++ PyStr.digits a.

(** Layout of the digits [ds] with the decimal point at [dp]: exponent
    notation when [dp <= -4] or [dp > 16], positional notation otherwise,
    always with a fractional part. *)
Definition layout (ds : string) (dp : Z) : string :=
  let nd := Z.of_nat (String.length ds) in
  if (dp <=? -4) || (16 <? dp) then
    match ds with
    | String c EmptyString => String c EmptyString ++ "e" ++ exponent_digits (dp - 1)
    | String c rest => String c EmptyString ++ "." ++ rest ++ "e" ++ exponent_digits (dp - 1)
    | EmptyString => EmptyString
    end
  else if dp <=? 0 then "0." ++ zeros (Z.to_nat (- dp)) ++ ds
  else if nd <=? dp then ds ++ zeros (Z.to_nat (dp - nd)) ++ ".0"
  else substring 0 (Z.to_nat dp) ds ++ "."
         ++ substring (Z.to_nat dp) (Z.to_nat (nd - dp)) ds.

(** [repr(f)], which is also [str(f)] and what an f-string prints. *)
Definition repr (f : float) : string :=
  match f with
  | S754_nan => "nan"
  | S754_infinity s => if s then "-inf" else "inf"
  | S754_zero s => if s then "-0.0" else "0.0"
  | S754_finite s m e =>
      let nd := fraction m e in
      let '(ds, dp) := shortest 17 1 nd (decpt nd) (S754_finite false m e) in
      (if s then "-" else "") ++ layout (PyStr.digits ds) dp
  end.

End PyFloat.

(* ================================================================== *)
(** * The conversions [int(s)] and [float(s)] from a string *)
(* ================================================================== *)

Module PyParse.

Definition digit_val (c : ascii) : Z := PyStr.code c - 48.

(** The rest of a digit part [digit (["_"] digit)*] once its first digit is
    read: the value so far, the number of digits so far, and what remains
    of the input at the end. *)
Fixpoint digitpart_rest (s : string) (acc cnt : Z) : Z * Z * string :=
  match s with
  | String c s' =>
      if PyStr.is_digit c then digitpart_rest s' (acc * 10 + digit_val c) (cnt + 1)
      else if Ascii.eqb c "_" then
        match s' with
        | String d s'' =>
            if PyStr.is_digit d
            then digitpart_rest s'' (acc * 10 + digit_val d) (cnt + 1)
            else (acc, cnt, s)
        | EmptyString => (acc, cnt, s)
        end
      else (acc, cnt, s)
  | EmptyString => (acc, cnt, s)
  end.

Definition digitpart (s : string) : option (Z * Z * string) :=
  match s with
  | String c s' =>
      if PyStr.is_digit c then Some (digitpart_rest s' (digit_val c) 1) else None
  | EmptyString => None
  end.

Definition take_sign (s : string) : bool * string :=
  match s with
  | String c s' =>
      if Ascii.eqb c "-" then (true, s')
      else if Ascii.eqb c "+" then (false, s')
      else (false, s)
  | EmptyString => (false, s)
  end.

(** [sys.get_int_max_str_digits()]: a decimal literal with more digits is
    refused by [int()]. *)
Definition max_str_digits : Z := 4300.

(** [int(s)]; [None] stands for the [ValueError] it raises. *)
Definition parse_int (s : string) : option Z :=
  let '(neg, r) := take_sign (PyStr.strip s) in
  match digitpart r with
  | Some (v, cnt, EmptyString) =>
      if max_str_digits <? cnt then None else Some (if neg then - v else v)
  | _ => None
  end.

(** The exponent part [("e" | "E") [sign] digitpart], when there is one. *)
Definition exponent (s : string) : option (Z * string) :=
  match s with
  | String c s' =>
      if Ascii.eqb c "e" || Ascii.eqb c "E" then
        let '(neg, r) := take_sign s' in
        match digitpart r with
        | Some (v, _, r') => Some (if neg then - v else v, r')
        | None => None
        end
      else None
  | EmptyString => Some (0, s)
  end.

(** [float(s)]; [None] stands for the [ValueError] it raises. *)
Definition parse_float (s : string) : option PyFloat.float :=
  let '(neg, r) := take_sign (PyStr.strip s) in
  let lr := PyStr.lower r in
  if String.eqb lr "inf" || String.eqb lr "infinity" then Some (S754_infinity neg)
  else if String.eqb lr "nan" then Some S754_nan
  else
    let '(ip, r1) :=
      match digitpart r with
      | Some (v, c, r1) => (Some v, r1)
      | None => (None, r)
      end in
    let '(fp, r2) :=
      match r1 with
      | String c r' =>
          if Ascii.eqb c "." then
            match digitpart r' with
            | Some (v, c, r2) => (Some (v, c), r2)
            | None => (None, r')
            end
          else (None, r1)
      | EmptyString => (None, r1)
      end in
    match ip, fp with
    | None, None => None
    | _, _ =>
        let iv := match ip with Some v => v | None => 0 end in
        let '(fv, fc) := match fp with Some vc => vc | None => (0, 0) end in
        match exponent r2 with
        | Some (e, EmptyString) =>
            Some (PyFloat.of_decimal neg (iv * 10 ^ fc + fv) (e - fc))
        | _ => None
        end
    end.

End PyParse.

(* ================================================================== *)
(** * Python values, exceptions and the dynamic operations used *)
(* ================================================================== *)

Module Py.

Import PyStr.

(** The values a decoded JSON document is made of. *)
Inductive value : Type :=
| VNone
| VBool (b : bool)
| VInt (z : Z)
| VFloat (f : PyFloat.float)
| VStr (s : string)
| VList (l : list value)
| VDict (d : list (string * value)).

Inductive exn_class : Type :=
| ValueError | TypeError | AttributeError | OverflowError | ZeroDivisionError
| OtherError.

(** An exception: its class and [str(e)]. *)
Record exn : Type := Exn { exn_cls : exn_class; exn_msg : string }.

(** Does [except ValueError] catch it? *)
Definition is_ValueError (e : exn) : bool :=
  match exn_cls e with ValueError => true | _ => false end.

(** The outcome of evaluating an expression: a value or a raised
    exception. *)
Inductive Exc (A : Type) : Type :=
| Ok (a : A)
| Raise (e : exn).
Arguments Ok {A} a.
Arguments Raise {A} e.

Definition bind {A B : Type} (m : Exc A) (k : A -> Exc B) : Exc B :=
  match m with
  | Ok a => k a
  | Raise e => Raise e
  end.

Definition raise {A : Type} (c : exn_class) (msg : string) : Exc A :=
  Raise (Exn c msg).

Declare Scope exc_scope.
Delimit Scope exc_scope with exc.
Notation "x <- m ;; k" := (bind m (fun x => k))
  (at level 61, m at next level, right associativity) : exc_scope.
Local Open Scope exc_scope.

(** Sequential evaluation of a list of computations, left to right. *)
Fixpoint mapM {A B : Type} (f : A -> Exc B) (l : list A) : Exc (list B) :=
  match l with
  | [] => Ok []
  | a :: l' => b <- f a ;; bs <- mapM f l' ;; Ok (b :: bs)
  end.

(** [type(v).__name__]. *)
Definition type_name (v : value) : string :=
  match v with
  | VNone => "NoneType"
  | VBool _ => "bool"
  | VInt _ => "int"
  | VFloat _ => "float"
  | VStr _ => "str"
  | VList _ => "list"
  | VDict _ => "dict"
  end.

(** ** [repr] and [str] *)

Definition dquote : ascii := ascii_of_nat 34.
Definition squote : ascii := ascii_of_nat 39.
Definition backslash : ascii := ascii_of_nat 92.

Fixpoint has_char (c : ascii) (s : string) : bool :=
  match s with
  | EmptyString => false
  | String d s' => Ascii.eqb c d || has_char c s'
  end.

Definition hex_digit (n : Z) : ascii :=
  if n <? 10 then ascii_of_nat (48 + Z.to_nat n) else ascii_of_nat (87 + Z.to_nat n).

Definition one (c : ascii) : string := String c EmptyString.

Definition escape_char (q c : ascii) : string :=
  let n := code c in
  if Ascii.eqb c q || Ascii.eqb c backslash then String backslash (one c)
  else if n =? 9 then String backslash "t"
  else if n =? 10 then String backslash "n"
  else if n =? 13 then String backslash "r"
  else if (n <? 32) || (n =? 127)
  then String backslash (String "x" (String (hex_digit (n / 16)) (one (hex_digit (n mod 16)))))
  else one c.

Fixpoint escape (q : ascii) (s : string) : string :=
  match s with
  | EmptyString => EmptyString
  | String c s' => escape_char q c ++ escape q s'
  end.

(** [repr(s)] for a [str]: single quotes unless the string holds a single
    quote and no double quote. *)
Definition str_repr (s : string) : string :=
  let q := if has_char squote s && negb (has_char dquote s) then dquote else squote in
  String q (escape q s ++ one q).

Fixpoint join (sep : string) (l : list string) : string :=
  match l with
  | [] => EmptyString
  | [s] => s
  | s :: l' => s ++ sep ++ join sep l'
  end.

Fixpoint repr (v : value) : string :=
  match v with
  | VNone => "None"
  | VBool b => if b then "True" else "False"
  | VInt z => of_int z
  | VFloat f => PyFloat.repr f
  | VStr s => str_repr s
  | VList l => "[" ++ join ", " (map repr l) ++ "]"
  | VDict d =>
      "{" ++ join ", " (map (fun kv => let '(k, x) := kv in str_repr k ++ ": " ++ repr x) d)
          ++ "}"
  end.

(** [str(v)], which is what an f-string field [{v}] prints. *)
Definition str (v : value) : string :=
  match v with
  | VStr s => s
  | _ => repr v
  end.

(** ** Truth value, [dict.get], iteration, [len], slicing *)

(** [bool(v)]. *)
Definition truthy (v : value) : bool :=
  match v with
  | VNone => false
  | VBool b => b
  | VInt z => negb (z =? 0)
  | VFloat f => negb (PyFloat.is_zero f)
  | VStr s => PyStr.truthy s
  | VList l => match l with [] => false | _ => true end
  | VDict d => match d with [] => false | _ => true end
  end.

Fixpoint lookup (k : string) (d : list (string * value)) : option value :=
  match d with
  | [] => None
  | (k', x) :: d' => if String.eqb k k' then Some x else lookup k d'
  end.

Definition no_attribute {A : Type} (v : value) (attr : string) : Exc A :=
  raise AttributeError
    (cat ["'"; type_name v; "' object has no attribute '"; attr; "'"]).

(** [v.get(k, default)]. *)
Definition get (v : value) (k : string) (default : value) : Exc value :=
  match v with
  | VDict d => Ok (match lookup k d with Some x => x | None => default end)
  | _ => no_attribute v "get"
  end.

(** Is the byte a UTF-8 continuation byte? *)
Definition is_continuation (c : ascii) : bool :=
  let n := code c in (128 <=? n) && (n <? 192).

(** The characters of a string: each byte that is not a continuation byte
    starts one. *)
Fixpoint chars_from (s : string) (cur : string) : list string :=
  match s with
  | EmptyString => [PyStr.rev cur]
  | String c s' =>
      if is_continuation c then chars_from s' (String c cur)
      else PyStr.rev cur :: chars_from s' (one c)
  end.

Definition chars (s : string) : list string :=
  match s with
  | EmptyString => []
  | String c s' => chars_from s' (one c)
  end.

(** The elements [for x in v] runs over. *)
Definition iter (v : value) : Exc (list value) :=
  match v with
  | VList l => Ok l
  | VDict d => Ok (map (fun kv => VStr (fst kv)) d)
  | VStr s => Ok (map VStr (chars s))
  | _ => raise TypeError (cat ["'"; type_name v; "' object is not iterable"])
  end.

(** [len(v)]. *)
Definition len (v : value) : Exc Z :=
  match v with
  | VList l => Ok (Z.of_nat (List.length l))
  | VDict d => Ok (Z.of_nat (List.length d))
  | VStr s => Ok (Z.of_nat (List.length (chars s)))
  | _ => raise TypeError (cat ["object of type '"; type_name v; "' has no len()"])
  end.

(** [v[:n]] for a constant [n >= 0]. *)
Definition slice_to (v : value) (n : nat) : Exc value :=
  match v with
  | VList l => Ok (VList (firstn n l))
  | VStr s => Ok (VStr (PyStr.cat (firstn n (chars s))))
  | VDict _ => raise TypeError "unhashable type: 'slice'"
  | _ => raise TypeError (cat ["'"; type_name v; "' object is not subscriptable"])
  end.

(** ** Arithmetic *)

Inductive num : Type :=
| NInt (z : Z)
| NFloat (f : PyFloat.float).

(** The numbers: [int], [float], and [bool] as the [int] subclass it is. *)
Definition as_num (v : value) : option num :=
  match v with
  | VBool b => Some (NInt (if b then 1 else 0))
  | VInt z => Some (NInt z)
  | VFloat f => Some (NFloat f)
  | _ => None
  end.

Definition as_index (v : value) : option Z :=
  match as_num v with
  | Some (NInt z) => Some z
  | _ => None
  end.

Definition is_seq (v : value) : bool :=
  match v with
  | VStr _ | VList _ => true
  | _ => false
  end.

(** Conversion of an [int] to [float]. *)
Definition float_of_int (z : Z) : Exc PyFloat.float :=
  let f := PyFloat.of_int z in
  if PyFloat.is_inf f then raise OverflowError "int too large to convert to float"
  else Ok f.

Definition float_of_num (n : num) : Exc PyFloat.float :=
  match n with
  | NInt z => float_of_int z
  | NFloat f => Ok f
  end.

Definition unsupported {A : Type} (op : string) (a b : value) : Exc A :=
  raise TypeError
    (cat ["unsupported operand type(s) for "; op; ": '"; type_name a; "' and '";
          type_name b; "'"]).

Fixpoint repeat_string (n : nat) (s : string) : string :=
  match n with
  | O => EmptyString
  | S n' => s ++ repeat_string n' s
  end.

Fixpoint repeat_list {A : Type} (n : nat) (l : list A) : list A :=
  match n with
  | O => []
  | S n' => l ++ repeat_list n' l
  end.

(** [seq * n]: repetition, empty for [n <= 0].  A count that does not fit
    a machine index raises; running out of memory is not modelled. *)
Definition repeat_seq (seq : value) (n : Z) : Exc value :=
  if (n <? - 2 ^ 63) || (2 ^ 63 <=? n)
  then raise OverflowError "cannot fit 'int' into an index-sized integer"
  else
    match seq with
    | VStr s => Ok (VStr (repeat_string (Z.to_nat n) s))
    | VList l => Ok (VList (repeat_list (Z.to_nat n) l))
    | _ => Ok seq
    end.

Definition not_an_int {A : Type} (v : value) : Exc A :=
  raise TypeError (cat ["can't multiply sequence by non-int of type '"; type_name v; "'"]).

(** [a * b]. *)
Definition mul (a b : value) : Exc value :=
  match as_num a, as_num b with
  | Some (NInt x), Some (NInt y) => Ok (VInt (x * y))
  | Some x, Some y =>
      fx <- float_of_num x ;; fy <- float_of_num y ;; Ok (VFloat (PyFloat.mul fx fy))
  | _, _ =>
      if is_seq a then
        match as_index b with Some n => repeat_seq a n | None => not_an_int b end
      else if is_seq b then
        match as_index a with Some n => repeat_seq b n | None => not_an_int a end
      else unsupported "*" a b
  end.

(** The quotient of two integers, correctly rounded. *)
Definition int_true_div (x y : Z) : PyFloat.float :=
  let neg := xorb (x <? 0) (y <? 0) in
  match Z.abs x, Z.abs y with
  | Zpos n, Zpos d => PyFloat.of_ratio neg n d
  | _, _ => S754_zero neg
  end.

Definition num_is_zero (n : num) : bool :=
  match n with
  | NInt z => z =? 0
  | NFloat f => PyFloat.is_zero f
  end.

(** [a / b], true division.  With a float operand both operands are
    converted to float first, and a zero divisor raises; the conversion of
    an [int] is zero only for the integer zero, so the test is made on the
    divisor itself. *)
Definition div (a b : value) : Exc value :=
  match as_num a, as_num b with
  | Some (NInt x), Some (NInt y) =>
      if y =? 0 then raise ZeroDivisionError "division by zero"
      else
        let f := int_true_div x y in
        if PyFloat.is_inf f
        then raise OverflowError "integer division result too large for a float"
        else Ok (VFloat f)
  | Some x, Some y =>
      fx <- float_of_num x ;;
      fy <- float_of_num y ;;
      if num_is_zero y then raise ZeroDivisionError "float division by zero"
      else Ok (VFloat (PyFloat.div fx fy))
  | _, _ => unsupported "/" a b
  end.

(** [a += b] for a number [a]. *)
Definition iadd (a b : value) : Exc value :=
  match as_num a, as_num b with
  | Some (NInt x), Some (NInt y) => Ok (VInt (x + y))
  | Some x, Some y =>
      fx <- float_of_num x ;; fy <- float_of_num y ;; Ok (VFloat (PyFloat.add fx fy))
  | _, _ => unsupported "+=" a b
  end.

(** [a > z] for an integer constant [z]; an [int] and a [float] are
    compared exactly. *)
Definition gt_int (a : value) (z : Z) : Exc bool :=
  match as_num a with
  | Some (NInt x) => Ok (z <? x)
  | Some (NFloat f) =>
      Ok (match PyFloat.compare_int f z with Some Gt => true | _ => false end)
  | None =>
      raise TypeError
        (cat ["'>' not supported between instances of '"; type_name a; "' and 'int'"])
  end.

(** ** Conversions and formatting *)

(** [float(v)]. *)
Definition to_float (v : value) : Exc PyFloat.float :=
  match v with
  | VStr s =>
      match PyParse.parse_float s with
      | Some f => Ok f
      | None => raise ValueError ("could not convert string to float: " ++ str_repr s)
      end
  | _ =>
      match as_num v with
      | Some n => float_of_num n
      | None =>
          raise TypeError
            (cat ["float() argument must be a string or a real number, not '";
                  type_name v; "'"])
      end
  end.

(** [int(s)] for a string [s]. *)
Definition to_int (s : string) : Exc Z :=
  match PyParse.parse_int s with
  | Some z => Ok z
  | None => raise ValueError ("invalid literal for int() with base 10: " ++ str_repr s)
  end.

(** [format(v, spec)] for the specs [+.2f] and [,.2f]. *)
Definition format_f2 (plus comma : bool) (v : value) : Exc string :=
  match as_num v with
  | Some n => f <- float_of_num n ;; Ok (PyFloat.format_f2 plus comma f)
  | None =>
      match v with
      | VStr _ => raise ValueError "Unknown format code 'f' for object of type 'str'"
      | _ =>
          raise TypeError
            (cat ["unsupported format string passed to "; type_name v; ".__format__"])
      end
  end.

(** [v.lower()]. *)
Definition lower (v : value) : Exc string :=
  match v with
  | VStr s => Ok (PyStr.lower s)
  | _ => no_attribute v "lower"
  end.

End Py.

(* ================================================================== *)
(** * The server *)
(* ================================================================== *)

Module Server.

Import PyStr Py.
Local Open Scope exc_scope.

(** ** Configuration *)

(** The three settings read from the process environment at start-up. *)
Record Config : Type := {
  API_KEY : string;
  API_SECRET : string;
  ENVIRONMENT : string
}.

(** [os.environ.get(key, default)]. *)
Definition environ_get (environ : string -> option string) (key default : string) : string :=
  match environ key with
  | Some v => v
  | None => default
  end.

Definition load_config (environ : string -> option string) : Config := {|
  API_KEY := environ_get environ "TRADING212_API_KEY" "";
  API_SECRET := environ_get environ "TRADING212_API_SECRET" "";
  ENVIRONMENT := environ_get environ "TRADING212_ENVIRONMENT" "live"
|}.

Definition DEMO_BASE_URL : string := "https://demo.trading212.com/api/v0".
Definition LIVE_BASE_URL : string := "https://live.trading212.com/api/v0".

(** ** The collaborators: HTTP client, remote server, JSON codec *)

Record request : Type := {
  req_method : string;
  req_url : string;
  req_headers : list (string * string);
  req_json : option value
}.

Record response : Type := {
  status_code : Z;
  text : string
}.

(** What a call of the HTTP client comes back with: a response, or an
    exception (DNS, connection, timeout). *)
Inductive reply : Type :=
| Reply (r : response)
| Failed (e : exn).

Record Backend : Type := {
  (** the client and the remote server, given the requests issued before *)
  send : list request -> request -> reply;
  (** [json.loads], also behind [response.json()] *)
  json_loads : string -> Exc value;
  (** [json.dumps] *)
  json_dumps : value -> string;
  (** [str(e)] for the [HTTPStatusError] that [raise_for_status] raises *)
  status_error_str : request -> response -> string
}.

(** [response.is_success]: [raise_for_status] raises on every other status. *)
Definition is_success (r : response) : bool :=
  (200 <=? status_code r) && (status_code r <=? 299).

(** ** Standard base64, for the credential header *)

Definition b64_alphabet : string :=
  "ABCDEFGHIJKLMNOPQRSTUVWXYZabcdefghijklmnopqrstuvwxyz0123456789+/".

Definition b64_char (n : Z) : string :=
  match String.get (Z.to_nat n) b64_alphabet with
  | Some c => one c
  | None => "="
  end.

Fixpoint b64encode (s : string) : string :=
  match s with
  | String a (String b (String c rest)) =>
      let n := code a * 65536 + code b * 256 + code c in
      cat [b64_char (n / 262144); b64_char (n / 4096 mod 64);
           b64_char (n / 64 mod 64); b64_char (n mod 64)] ++ b64encode rest
  | String a (String b EmptyString) =>
      let n := code a * 65536 + code b * 256 in
      cat [b64_char (n / 262144); b64_char (n / 4096 mod 64); b64_char (n / 64 mod 64); "="]
  | String a EmptyString =>
      let n := code a * 65536 in
      cat [b64_char (n / 262144); b64_char (n / 4096 mod 64); "=="]
  | EmptyString => EmptyString
  end.

(** ** Computations: exceptions and the log of issued requests *)

(** A computation that cannot raise. *)
Definition IO (A : Type) : Type := list request -> A * list request.

(** A computation inside a [try] block: it returns or raises, and the
    requests it issued stay issued either way. *)
Definition M (A : Type) : Type := IO (Exc A).

Definition ret {A : Type} (a : A) : M A := fun log => (Ok a, log).

Definition lift {A : Type} (m : Exc A) : M A := fun log => (m, log).

Definition io {A : Type} (m : IO A) : M A :=
  fun log => let '(a, log') := m log in (Ok a, log').

Definition bindM {A B : Type} (m : M A) (k : A -> M B) : M B :=
  fun log =>
    match m log with
    | (Ok a, log') => k a log'
    | (Raise e, log') => (Raise e, log')
    end.

(** [try: body  except ...: handler]. *)
Definition try_except (body : M string) (handler : exn -> string) : IO string :=
  fun log =>
    match body log with
    | (Ok s, log') => (s, log')
    | (Raise e, log') => (handler e, log')
    end.

Declare Scope io_scope.
Delimit Scope io_scope with io.
Notation "x <- m ;; k" := (bindM m (fun x => k))
  (at level 61, m at next level, right associativity) : io_scope.

(** The first character of every failure text. *)
Definition marker : string := "❌".

(** [isinstance(result, str) and result.startswith(marker)]. *)
Definition is_error (result : value) : bool :=
  match result with
  | VStr s => startswith s marker
  | _ => false
  end.

(** The handler [except Exception as e: return f"(marker) Error: {str(e)}"]. *)
Definition generic_error (e : exn) : string := marker ++ " Error: " ++ exn_msg e.

(** A blank input: [not s.strip()]. *)
Definition blank (s : string) : bool := negb (PyStr.truthy (strip s)).

Section WithConfig.

Variable cfg : Config.
Variable backend : Backend.

Definition get_base_url : string :=
  if String.eqb (PyStr.lower (ENVIRONMENT cfg)) "live" then LIVE_BASE_URL else DEMO_BASE_URL.

Definition get_auth_header : string :=
  if negb (PyStr.truthy (API_KEY cfg)) || negb (PyStr.truthy (API_SECRET cfg)) then ""
  else
    let credentials := API_KEY cfg ++ ":" ++ API_SECRET cfg in
    let encoded := b64encode credentials in
    "Basic " ++ encoded.

Definition not_configured : string :=
  marker ++ " Error: API_KEY and API_SECRET environment variables not set".

(** The text for a response whose status is not a success. *)
Definition api_error (req : request) (r : response) : string :=
  let error_msg :=
    if PyStr.truthy (text r) then text r else status_error_str backend req r in
  cat [marker; " API Error ("; of_int (status_code r); "): "; error_msg].

(** The request [make_request] builds for a method, if the method is
    supported; decoding the body of a POST or PUT may raise. *)
Definition build_request (method url : string) (headers : list (string * string))
    (data : string) : Exc (option request) :=
  let with_body :=
    json_data <- (if PyStr.truthy data then json_loads backend data else Ok (VDict [])) ;;
    Ok (Some (Build_request method url headers (Some json_data))) in
  if String.eqb method "GET" then Ok (Some (Build_request method url headers None))
  else if String.eqb method "POST" then with_body
  else if String.eqb method "DELETE" then Ok (Some (Build_request method url headers None))
  else if String.eqb method "PUT" then with_body
  else Ok None.

(** [make_request]: the decoded JSON body on success, a failure text
    otherwise.  It never raises. *)
Definition make_request (method endpoint data : string) : IO value :=
  fun log =>
    if negb (PyStr.truthy (API_KEY cfg)) || negb (PyStr.truthy (API_SECRET cfg))
    then (VStr not_configured, log)
    else
      let base_url := get_base_url in
      let url := base_url ++ endpoint in
      let auth_header := get_auth_header in
      let headers :=
        [("Authorization", auth_header); ("Content-Type", "application/json")] in
      match build_request method url headers data with
      | Raise e => (VStr (generic_error e), log)
      | Ok None => (VStr (marker ++ " Error: Unsupported method " ++ method), log)
      | Ok (Some req) =>
          let log' := (log ++ [req])%list in
          match send backend log req with
          | Failed e => (VStr (generic_error e), log')
          | Reply r =>
              if is_success r then
                match json_loads backend (text r) with
                | Ok v => (v, log')
                | Raise e => (VStr (generic_error e), log')
                end
              else (VStr (api_error req r), log')
          end
      end.

(** [format_currency]: any failure of [float(value)] or of the formatting
    falls back to [str(value)]. *)
Definition format_currency (v : value) : string :=
  match (f <- to_float v ;; Ok ("$" ++ PyFloat.format_f2 false true f)) with
  | Ok s => s
  | Raise _ => str v
  end.

(** The last line of most results. *)
Definition environment_line : string := "Environment: " ++ PyStr.upper (ENVIRONMENT cfg).

(** The pattern every operation follows inside its [try] block: issue the
    request, hand a failure text back unchanged, render anything else. *)
Definition call_api (method endpoint data : string) (render : value -> Exc string)
    : M string :=
  (result <- io (make_request method endpoint data) ;;
   if is_error result then ret (str result) else lift (render result))%io.

Definition NA : value := VStr "N/A".
Definition zero : value := VInt 0.

(** ** Formatters *)

Definition account_info_text (result : value) : Exc string :=
  id <- get result "id" NA ;;
  currency <- get result "currencyCode" NA ;;
  cash <- get result "cash" zero ;;
  Ok (cat ["📊 Account Information:"; nl;
           "- Account ID: "; str id; nl;
           "- Currency: "; str currency; nl;
           "- Cash Available: "; format_currency cash; nl;
           nl]
      ++ environment_line).

Definition account_cash_text (result : value) : Exc string :=
  free <- get result "free" zero ;;
  invested <- get result "invested" zero ;;
  ppl <- get result "ppl" zero ;;
  res <- get result "result" zero ;;
  total <- get result "total" zero ;;
  blocked <- get result "blocked" zero ;;
  pieppl <- get result "pieppl" zero ;;
  Ok (cat ["💰 Cash Balance:"; nl;
           "- Free: "; format_currency free; nl;
           "- Invested: "; format_currency invested; nl;
           "- Profit/Loss: "; format_currency ppl; nl;
           "- Result: "; format_currency res; nl;
           "- Total: "; format_currency total; nl;
           "- Blocked: "; format_currency blocked; nl;
           "- Pieppl: "; format_currency pieppl; nl;
           nl]
      ++ environment_line).

(** The return percentage of a position:
    [(ppl / (avg_price * quantity) * 100) if avg_price * quantity > 0 else 0]. *)
Definition return_percent (ppl avg_price quantity : value) : Exc value :=
  cost <- mul avg_price quantity ;;
  positive <- gt_int cost 0 ;;
  if positive then
    cost' <- mul avg_price quantity ;;
    ratio <- div ppl cost' ;;
    mul ratio (VInt 100)
  else Ok (VInt 0).

Definition portfolio_entry (position : value) : Exc string :=
  ticker <- get position "ticker" NA ;;
  quantity <- get position "quantity" zero ;;
  avg_price <- get position "averagePrice" zero ;;
  current_price <- get position "currentPrice" zero ;;
  ppl <- get position "ppl" zero ;;
  ppl_percent <- return_percent ppl avg_price quantity ;;
  shown <- format_f2 true false ppl_percent ;;
  Ok (cat ["📈 "; str ticker; nl;
           "   Quantity: "; str quantity; nl;
           "   Avg Price: "; format_currency avg_price; nl;
           "   Current: "; format_currency current_price; nl;
           "   P/L: "; format_currency ppl; " ("; shown; "%)"; nl;
           "   "; nl]).

Definition portfolio_empty : string := "📊 Portfolio is empty".

Definition portfolio_text (result : value) : Exc string :=
  if negb (truthy result) then Ok portfolio_empty
  else
    positions <- iter result ;;
    entries <- mapM portfolio_entry positions ;;
    Ok (("📊 Portfolio Positions:" ++ nl ++ nl ++ cat entries) ++ environment_line).

Definition position_text (result : value) : Exc string :=
  ticker_name <- get result "ticker" NA ;;
  quantity <- get result "quantity" zero ;;
  avg_price <- get result "averagePrice" zero ;;
  current_price <- get result "currentPrice" zero ;;
  ppl <- get result "ppl" zero ;;
  initial_fill_date <- get result "initialFillDate" NA ;;
  max_buy <- get result "maxBuy" zero ;;
  max_sell <- get result "maxSell" zero ;;
  total_value <- mul quantity current_price ;;
  percent <- return_percent ppl avg_price quantity ;;
  shown <- format_f2 true false percent ;;
  Ok (cat ["📈 Position Details: "; str ticker_name; nl;
           nl;
           "📊 Holdings:"; nl;
           "- Quantity: "; str quantity; nl;
           "- Average Price: "; format_currency avg_price; nl;
           "- Current Price: "; format_currency current_price; nl;
           "- Total Value: "; format_currency total_value; nl;
           nl;
           "💰 Performance:"; nl;
           "- P/L: "; format_currency ppl; nl;
           "- Return: "; shown; "%"; nl;
           nl;
           "📅 Details:"; nl;
           "- Initial Fill: "; str initial_fill_date; nl;
           "- Max Buy: "; str max_buy; nl;
           "- Max Sell: "; str max_sell; nl;
           nl]
      ++ environment_line).

Definition schedule_line (schedule : value) : Exc string :=
  open_time <- get schedule "openTime" NA ;;
  close_time <- get schedule "closeTime" NA ;;
  Ok (cat ["   - "; str open_time; " to "; str close_time; nl]).

Definition exchange_entry (exchange : value) : Exc string :=
  name <- get exchange "name" NA ;;
  exchange_id <- get exchange "id" NA ;;
  working_schedules <- get exchange "workingSchedules" (VList []) ;;
  hours <-
    (if truthy working_schedules then
       first3 <- slice_to working_schedules 3 ;;
       schedules <- iter first3 ;;
       lines <- mapM schedule_line schedules ;;
       Ok ("   Trading Hours:" ++ nl ++ cat lines)
     else Ok "") ;;
  Ok (cat ["📍 "; str name; " (ID: "; str exchange_id; ")"; nl; hours; nl]).

Definition exchanges_empty : string := "📊 No exchanges found".

Definition exchanges_text (result : value) : Exc string :=
  if negb (truthy result) then Ok exchanges_empty
  else
    exchanges <- iter result ;;
    entries <- mapM exchange_entry exchanges ;;
    Ok ("🌐 Available Exchanges:" ++ nl ++ nl ++ cat entries).

(** The filter of the instrument search:
    [query_lower in inst.get('ticker', '').lower() or
     query_lower in inst.get('name', '').lower()]. *)
Definition instrument_matches (query_lower : string) (inst : value) : Exc bool :=
  ticker <- get inst "ticker" (VStr "") ;;
  ticker_lower <- lower ticker ;;
  if contains query_lower ticker_lower then Ok true
  else
    name <- get inst "name" (VStr "") ;;
    name_lower <- lower name ;;
    Ok (contains query_lower name_lower).

(** A list comprehension with a condition that may raise. *)
Fixpoint filterM {A : Type} (p : A -> Exc bool) (l : list A) : Exc (list A) :=
  match l with
  | [] => Ok []
  | a :: l' =>
      keep <- p a ;;
      rest <- filterM p l' ;;
      Ok (if keep then a :: rest else rest)
  end.

Definition instrument_entry (inst : value) : Exc string :=
  ticker <- get inst "ticker" NA ;;
  name <- get inst "name" NA ;;
  currency <- get inst "currencyCode" NA ;;
  inst_type <- get inst "type" NA ;;
  Ok (cat ["📊 "; str ticker; " - "; str name; nl;
           "   Type: "; str inst_type; " | Currency: "; str currency; nl; nl]).

Definition no_instruments (query : string) : string :=
  cat ["🔍 No instruments found matching '"; query; "'"].

(** The trailing note of a truncated search result. *)
Definition more_results (n : Z) : string :=
  cat ["... and "; of_int n; " more results"; nl].

Definition search_text (query : string) (result : value) : Exc string :=
  let query_lower := PyStr.lower query in
  instruments <- iter result ;;
  matches <- filterM (instrument_matches query_lower) instruments ;;
  match matches with
  | [] => Ok (no_instruments query)
  | _ =>
      entries <- mapM instrument_entry (firstn 10 matches) ;;
      let output := cat ["🔍 Search Results for '"; query; "':"; nl; nl] ++ cat entries in
      let count := Z.of_nat (List.length matches) in
      Ok (if 10 <? count then output ++ more_results (count - 10) else output)
  end.

Definition active_order_entry (order : value) : Exc string :=
  order_id <- get order "id" NA ;;
  ticker <- get order "ticker" NA ;;
  order_type <- get order "type" NA ;;
  quantity <- get order "quantity" zero ;;
  limit_price <- get order "limitPrice" zero ;;
  stop_price <- get order "stopPrice" zero ;;
  status <- get order "status" NA ;;
  created <- get order "createdOn" NA ;;
  Ok (cat ["⚡ Order #"; str order_id; nl;
           "   Ticker: "; str ticker; nl;
           "   Type: "; str order_type; nl;
           "   Quantity: "; str quantity; nl;
           "   Status: "; str status;
           (if truthy limit_price
            then nl ++ "   Limit Price: " ++ format_currency limit_price else "");
           (if truthy stop_price
            then nl ++ "   Stop Price: " ++ format_currency stop_price else "");
           nl; "   Created: "; str created; nl; nl]).

Definition active_orders_empty : string := "📋 No active orders".

Definition active_orders_text (result : value) : Exc string :=
  if negb (truthy result) then Ok active_orders_empty
  else
    orders <- iter result ;;
    entries <- mapM active_order_entry orders ;;
    Ok (("📋 Active Orders:" ++ nl ++ nl ++ cat entries) ++ environment_line).

Definition order_text (result : value) : Exc string :=
  order_id_val <- get result "id" NA ;;
  ticker <- get result "ticker" NA ;;
  order_type <- get result "type" NA ;;
  quantity <- get result "quantity" zero ;;
  filled_quantity <- get result "filledQuantity" zero ;;
  limit_price <- get result "limitPrice" zero ;;
  stop_price <- get result "stopPrice" zero ;;
  status <- get result "status" NA ;;
  created <- get result "createdOn" NA ;;
  Ok (cat ["📋 Order Details:"; nl;
           nl;
           "Order ID: "; str order_id_val; nl;
           "Ticker: "; str ticker; nl;
           "Type: "; str order_type; nl;
           "Status: "; str status; nl;
           nl;
           "Quantities:"; nl;
           "- Requested: "; str quantity; nl;
           "- Filled: "; str filled_quantity; nl;
           (if truthy limit_price
            then "Limit Price: " ++ format_currency limit_price ++ nl else "");
           (if truthy stop_price
            then "Stop Price: " ++ format_currency stop_price ++ nl else "");
           "Created: "; str created; nl;
           nl]
      ++ environment_line).

Definition market_order_text (ticker : string) (quantity_float : PyFloat.float)
    (result : value) : Exc string :=
  order_id <- get result "id" NA ;;
  status <- get result "status" NA ;;
  Ok (cat ["✅ Market Order Placed:"; nl;
           nl;
           "Order ID: "; str order_id; nl;
           "Ticker: "; ticker; nl;
           "Quantity: "; PyFloat.repr quantity_float; nl;
           "Status: "; str status; nl;
           "Type: MARKET"; nl;
           nl]
      ++ environment_line).

(** The text of a placed limit or stop order; [kind] is [Limit] or [Stop]. *)
Definition priced_order_text (kind ticker : string) (quantity_float price_float : PyFloat.float)
    (time_validity : string) (result : value) : Exc string :=
  order_id <- get result "id" NA ;;
  status <- get result "status" NA ;;
  Ok (cat ["✅ "; kind; " Order Placed:"; nl;
           nl;
           "Order ID: "; str order_id; nl;
           "Ticker: "; ticker; nl;
           "Quantity: "; PyFloat.repr quantity_float; nl;
           kind; " Price: "; format_currency (VFloat price_float); nl;
           "Time Validity: "; time_validity; nl;
           "Status: "; str status; nl;
           nl]
      ++ environment_line).

Definition cancelled_text (order_id : string) (result : value) : Exc string :=
  Ok (cat ["✅ Order "; order_id; " cancelled successfully"; nl; nl] ++ environment_line).

(** [not result or not result.get('items')], the test for an empty
    history page. *)
Definition no_items (result : value) : Exc bool :=
  if negb (truthy result) then Ok true
  else items <- get result "items" VNone ;; Ok (negb (truthy items)).

Definition history_order_entry (order : value) : Exc string :=
  order_id <- get order "id" NA ;;
  ticker_val <- get order "ticker" NA ;;
  order_type <- get order "type" NA ;;
  requested <- get order "quantity" zero ;;
  quantity <- get order "filledQuantity" requested ;;
  fill_price <- get order "fillPrice" zero ;;
  status <- get order "status" NA ;;
  created <- get order "dateCreated" NA ;;
  Ok (cat ["📊 "; str ticker_val; " - "; str order_type; nl;
           "   Order ID: "; str order_id; nl;
           "   Quantity: "; str quantity; nl;
           "   Fill Price: ";
           (if truthy fill_price then format_currency fill_price else "N/A"); nl;
           "   Status: "; str status; nl;
           "   Date: "; str created; nl;
           "   "; nl]).

Definition order_history_empty : string := "📋 No order history found".

Definition order_history_text (result : value) : Exc string :=
  empty <- no_items result ;;
  if empty then Ok order_history_empty
  else
    items <- get result "items" (VList []) ;;
    orders <- iter items ;;
    entries <- mapM history_order_entry orders ;;
    Ok (("📋 Order History:" ++ nl ++ nl ++ cat entries) ++ environment_line).

(** The loop over the dividends: the text so far and the running total. *)
Fixpoint dividend_loop (dividends : list value) (output : string) (total : value)
    : Exc (string * value) :=
  match dividends with
  | [] => Ok (output, total)
  | dividend :: rest =>
      ticker_val <- get dividend "ticker" NA ;;
      amount <- get dividend "amount" zero ;;
      amount_in_euro <- get dividend "amountInEuro" zero ;;
      paid_on <- get dividend "paidOn" NA ;;
      dividend_type <- get dividend "type" NA ;;
      quantity <- get dividend "quantity" zero ;;
      let output' :=
        output ++ cat ["💵 "; str ticker_val; nl;
                       "   Amount: "; format_currency amount; nl;
                       "   Quantity: "; str quantity; nl;
                       "   Type: "; str dividend_type; nl;
                       "   Paid On: "; str paid_on; nl;
                       "   "; nl] in
      total' <- iadd total amount ;;
      dividend_loop rest output' total'
  end.

Definition dividends_empty : string := "💰 No dividend history found".

Definition dividends_text (result : value) : Exc string :=
  empty <- no_items result ;;
  if empty then Ok dividends_empty
  else
    items <- get result "items" (VList []) ;;
    dividends <- iter items ;;
    final <- dividend_loop dividends ("💰 Dividend History:" ++ nl ++ nl) zero ;;
    let '(output, total) := final in
    Ok ((output ++ cat [nl; "💰 Total Dividends: "; format_currency total; nl])
        ++ environment_line).

Definition transaction_entry (transaction : value) : Exc string :=
  trans_type <- get transaction "type" NA ;;
  amount <- get transaction "amount" zero ;;
  date_time <- get transaction "dateTime" NA ;;
  reference <- get transaction "reference" NA ;;
  Ok (cat ["💳 "; str trans_type; nl;
           "   Amount: "; format_currency amount; nl;
           "   Date: "; str date_time; nl;
           "   Reference: "; str reference; nl;
           "   "; nl]).

Definition transactions_empty : string := "📊 No transactions found".

Definition transactions_text (result : value) : Exc string :=
  empty <- no_items result ;;
  if empty then Ok transactions_empty
  else
    items <- get result "items" (VList []) ;;
    transactions <- iter items ;;
    entries <- mapM transaction_entry transactions ;;
    Ok (("📊 Recent Transactions:" ++ nl ++ nl ++ cat entries) ++ environment_line).

Definition pie_entry (pie : value) : Exc string :=
  pie_id <- get pie "id" NA ;;
  name <- get pie "name" NA ;;
  status <- get pie "status" NA ;;
  goal <- get pie "goal" zero ;;
  result_val <- get pie "result" zero ;;
  instruments <- get pie "instruments" (VList []) ;;
  instruments_count <- len instruments ;;
  Ok (cat ["📊 "; str name; " (ID: "; str pie_id; ")"; nl;
           "   Status: "; str status; nl;
           "   Instruments: "; of_int instruments_count; nl;
           "   Goal: "; format_currency goal; nl;
           "   Result: "; format_currency result_val; nl;
           "   "; nl]).

Definition pies_empty : string := "🥧 No pies found".

Definition pies_text (result : value) : Exc string :=
  if negb (truthy result) then Ok pies_empty
  else
    pies <- iter result ;;
    entries <- mapM pie_entry pies ;;
    Ok (("🥧 Investment Pies:" ++ nl ++ nl ++ cat entries) ++ environment_line).

Definition holding_line (inst : value) : Exc string :=
  ticker <- get inst "ticker" NA ;;
  shares <- get inst "shares" zero ;;
  expected_share <- get inst "expectedShare" zero ;;
  Ok (cat ["  • "; str ticker; ": "; str shares; " shares ("; str expected_share; "%)"; nl]).

Definition pie_text (result : value) : Exc string :=
  pie_id_val <- get result "id" NA ;;
  name <- get result "name" NA ;;
  status <- get result "status" NA ;;
  goal <- get result "goal" zero ;;
  result_val <- get result "result" zero ;;
  cash <- get result "cash" zero ;;
  dividend_action <- get result "dividendCashAction" NA ;;
  instruments <- get result "instruments" (VList []) ;;
  count <- len instruments ;;
  holdings <- iter instruments ;;
  lines <- mapM holding_line holdings ;;
  Ok (cat ["🥧 Pie Details: "; str name; nl;
           nl;
           "ID: "; str pie_id_val; nl;
           "Status: "; str status; nl;
           nl;
           "💰 Finances:"; nl;
           "- Goal: "; format_currency goal; nl;
           "- Result: "; format_currency result_val; nl;
           "- Cash: "; format_currency cash; nl;
           "- Dividend Action: "; str dividend_action; nl;
           nl;
           "📊 Holdings ("; of_int count; " instruments):"; nl;
           cat lines;
           nl]
      ++ environment_line).

(** ** Tool operations *)

(** An immediate [return] before the [try] block. *)
Definition early (s : string) : IO string := fun log => (s, log).

Definition ticker_required : string := marker ++ " Error: Ticker symbol is required".
Definition query_required : string := marker ++ " Error: Search query is required".
Definition order_id_required : string := marker ++ " Error: Order ID is required".
Definition quantity_required : string := marker ++ " Error: Quantity is required".
Definition limit_price_required : string := marker ++ " Error: Limit price is required".
Definition stop_price_required : string := marker ++ " Error: Stop price is required".
Definition pie_id_required : string := marker ++ " Error: Pie ID is required".

Definition invalid_quantity (quantity : string) : string :=
  marker ++ " Error: Invalid quantity value: " ++ quantity.
Definition invalid_numeric : string := marker ++ " Error: Invalid numeric value".
Definition invalid_limit (limit : string) : string :=
  marker ++ " Error: Invalid limit value: " ++ limit.

(** The handlers [except ValueError: return text] followed by
    [except Exception as e]. *)
Definition value_error_or (text : string) (e : exn) : string :=
  if is_ValueError e then text else generic_error e.

Definition get_account_info : IO string :=
  try_except (call_api "GET" "/equity/account/info" "" account_info_text) generic_error.

Definition get_account_cash : IO string :=
  try_except (call_api "GET" "/equity/account/cash" "" account_cash_text) generic_error.

Definition get_portfolio : IO string :=
  try_except (call_api "GET" "/equity/portfolio" "" portfolio_text) generic_error.

Definition get_position (ticker : string) : IO string :=
  if blank ticker then early ticker_required
  else
    try_except (call_api "GET" ("/equity/portfolio/" ++ ticker) "" position_text)
      generic_error.

Definition list_exchanges : IO string :=
  try_except (call_api "GET" "/equity/metadata/exchanges" "" exchanges_text) generic_error.

Definition search_instruments (query : string) : IO string :=
  if blank query then early query_required
  else
    try_except (call_api "GET" "/equity/metadata/instruments" "" (search_text query))
      generic_error.

Definition get_active_orders : IO string :=
  try_except (call_api "GET" "/equity/orders" "" active_orders_text) generic_error.

Definition get_order (order_id : string) : IO string :=
  if blank order_id then early order_id_required
  else
    try_except (call_api "GET" ("/equity/orders/" ++ order_id) "" order_text) generic_error.

Definition place_market_order (ticker quantity : string) : IO string :=
  if blank ticker then early ticker_required
  else if blank quantity then early quantity_required
  else
    try_except
      (quantity_float <- lift (to_float (VStr quantity)) ;;
       let order_data :=
         VDict [("ticker", VStr ticker); ("quantity", VFloat quantity_float)] in
       call_api "POST" "/equity/orders/market" (json_dumps backend order_data)
         (market_order_text ticker quantity_float))%io
      (value_error_or (invalid_quantity quantity)).

Definition place_limit_order (ticker quantity limit_price time_validity : string)
    : IO string :=
  if blank ticker then early ticker_required
  else if blank quantity then early quantity_required
  else if blank limit_price then early limit_price_required
  else
    try_except
      (quantity_float <- lift (to_float (VStr quantity)) ;;
       limit_price_float <- lift (to_float (VStr limit_price)) ;;
       let order_data :=
         VDict [("ticker", VStr ticker); ("quantity", VFloat quantity_float);
                ("limitPrice", VFloat limit_price_float);
                ("timeValidity", VStr time_validity)] in
       call_api "POST" "/equity/orders/limit" (json_dumps backend order_data)
         (priced_order_text "Limit" ticker quantity_float limit_price_float time_validity))%io
      (value_error_or invalid_numeric).

Definition place_stop_order (ticker quantity stop_price time_validity : string)
    : IO string :=
  if blank ticker then early ticker_required
  else if blank quantity then early quantity_required
  else if blank stop_price then early stop_price_required
  else
    try_except
      (quantity_float <- lift (to_float (VStr quantity)) ;;
       stop_price_float <- lift (to_float (VStr stop_price)) ;;
       let order_data :=
         VDict [("ticker", VStr ticker); ("quantity", VFloat quantity_float);
                ("stopPrice", VFloat stop_price_float);
                ("timeValidity", VStr time_validity)] in
       call_api "POST" "/equity/orders/stop" (json_dumps backend order_data)
         (priced_order_text "Stop" ticker quantity_float stop_price_float time_validity))%io
      (value_error_or invalid_numeric).

Definition cancel_order (order_id : string) : IO string :=
  if blank order_id then early order_id_required
  else
    try_except (call_api "DELETE" ("/equity/orders/" ++ order_id) "" (cancelled_text order_id))
      generic_error.

(** [min(int(limit) if limit.strip() else 50, 50)]: the limit that goes into
    the request of a history operation. *)
Definition effective_limit (limit : string) : Exc Z :=
  requested <- (if PyStr.truthy (strip limit) then to_int limit else Ok 50) ;;
  Ok (Z.min requested 50).

(** The optional ticker filter of a history endpoint. *)
Definition with_ticker (endpoint ticker : string) : string :=
  if PyStr.truthy (strip ticker) then endpoint ++ "&ticker=" ++ ticker else endpoint.

Definition get_order_history (ticker limit : string) : IO string :=
  try_except
    (limit_int <- lift (effective_limit limit) ;;
     let endpoint := "/equity/history/orders?limit=" ++ of_int limit_int in
     call_api "GET" (with_ticker endpoint ticker) "" order_history_text)%io
    (value_error_or (invalid_limit limit)).

Definition get_dividends (ticker limit : string) : IO string :=
  try_except
    (limit_int <- lift (effective_limit limit) ;;
     let endpoint := "/history/dividends?limit=" ++ of_int limit_int in
     call_api "GET" (with_ticker endpoint ticker) "" dividends_text)%io
    (value_error_or (invalid_limit limit)).

Definition get_transactions (limit : string) : IO string :=
  try_except
    (limit_int <- lift (effective_limit limit) ;;
     call_api "GET" ("/history/transactions?limit=" ++ of_int limit_int) ""
       transactions_text)%io
    (value_error_or (invalid_limit limit)).

Definition list_pies : IO string :=
  try_except (call_api "GET" "/equity/pies" "" pies_text) generic_error.

Definition get_pie (pie_id : string) : IO string :=
  if blank pie_id then early pie_id_required
  else
    try_except (call_api "GET" ("/equity/pies/" ++ pie_id) "" pie_text) generic_error.

End WithConfig.

(** ** The tool registry *)

(** A tool invocation: the name of a registered tool with its arguments. *)
Inductive operation : Type :=
| GetAccountInfo
| GetAccountCash
| GetPortfolio
| GetPosition (ticker : string)
| ListExchanges
| SearchInstruments (query : string)
| GetActiveOrders
| GetOrder (order_id : string)
| PlaceMarketOrder (ticker quantity : string)
| PlaceLimitOrder (ticker quantity limit_price time_validity : string)
| PlaceStopOrder (ticker quantity stop_price time_validity : string)
| CancelOrder (order_id : string)
| GetOrderHistory (ticker limit : string)
| GetDividends (ticker limit : string)
| GetTransactions (limit : string)
| ListPies
| GetPie (pie_id : string).

(** Running an invocation. *)
Definition run (cfg : Config) (backend : Backend) (op : operation) : IO string :=
  match op with
  | GetAccountInfo => get_account_info cfg backend
  | GetAccountCash => get_account_cash cfg backend
  | GetPortfolio => get_portfolio cfg backend
  | GetPosition ticker => get_position cfg backend ticker
  | ListExchanges => list_exchanges cfg backend
  | SearchInstruments query => search_instruments cfg backend query
  | GetActiveOrders => get_active_orders cfg backend
  | GetOrder order_id => get_order cfg backend order_id
  | PlaceMarketOrder ticker quantity => place_market_order cfg backend ticker quantity
  | PlaceLimitOrder ticker quantity limit_price time_validity =>
      place_limit_order cfg backend ticker quantity limit_price time_validity
  | PlaceStopOrder ticker quantity stop_price time_validity =>
      place_stop_order cfg backend ticker quantity stop_price time_validity
  | CancelOrder order_id => cancel_order cfg backend order_id
  | GetOrderHistory ticker limit => get_order_history cfg backend ticker limit
  | GetDividends ticker limit => get_dividends cfg backend ticker limit
  | GetTransactions limit => get_transactions cfg backend limit
  | ListPies => list_pies cfg backend
  | GetPie pie_id => get_pie cfg backend pie_id
  end.

End Server.

(* ================================================================== *)
(** * Vocabulary of the properties *)
(* ================================================================== *)

Module Props.

Import PyStr Py Server.

(** The key of the environment selector in the process environment. *)
Definition selector_key : string := "TRADING212_ENVIRONMENT".

(** Equality of two strings, letter case ignored. *)
Definition same_ignoring_case (a b : string) : Prop := PyStr.lower a = PyStr.lower b.

(** Both credentials are present. *)
Definition configured (cfg : Config) : Prop :=
  API_KEY cfg <> "" /\ API_SECRET cfg <> "".


(** The required string inputs of an invocation, in the order the
    operation checks them, each with the text returned when it is blank. *)
Definition required_inputs (op : operation) : list (string * string) :=
  match op with
  | GetPosition ticker => [(ticker, ticker_required)]
  | SearchInstruments query => [(query, query_required)]
  | GetOrder order_id => [(order_id, order_id_required)]
  | PlaceMarketOrder ticker quantity =>
      [(ticker, ticker_required); (quantity, quantity_required)]
  | PlaceLimitOrder ticker quantity limit_price _ =>
      [(ticker, ticker_required); (quantity, quantity_required);
       (limit_price, limit_price_required)]
  | PlaceStopOrder ticker quantity stop_price _ =>
      [(ticker, ticker_required); (quantity, quantity_required);
       (stop_price, stop_price_required)]
  | CancelOrder order_id => [(order_id, order_id_required)]
  | GetPie pie_id => [(pie_id, pie_id_required)]
  | _ => []
  end.

(** The text of the first blank input, if one is blank. *)
Fixpoint first_blank (inputs : list (string * string)) : option string :=
  match inputs with
  | [] => None
  | (v, text) :: rest => if blank v then Some text else first_blank rest
  end.



(** The text an operation returns for a numeric input it cannot parse. *)
Definition invalid_numeric_text (op : operation) : string :=
  match op with
  | PlaceMarketOrder _ quantity => invalid_quantity quantity
  | GetOrderHistory _ limit | GetDividends _ limit | GetTransactions limit =>
      invalid_limit limit
  | _ => invalid_numeric
  end.

(** What an operation returns for an input it rejects before any request:
    the text of the first blank required input, or its text for a numeric
    input that does not parse. *)
Definition rejection (op : operation) (result : string) : Prop :=
  first_blank (required_inputs op) = Some result \/ result = invalid_numeric_text op.



(** A result is a success when it does not start with the failure marker. *)
Definition success (result : string) : bool := negb (startswith result marker).



(** The request [make_request] issues for a GET of an endpoint. *)
Definition get_request (cfg : Config) (endpoint : string) : request := {|
  req_method := "GET";
  req_url := get_base_url cfg ++ endpoint;
  req_headers :=
    [("Authorization", get_auth_header cfg); ("Content-Type", "application/json")];
  req_json := None
|}.




(** The request [make_request] builds for a method, an endpoint and a
    decoded body. *)
Definition request_of (cfg : Config) (method endpoint : string) (body : option value)
    : request := {|
  req_method := method;
  req_url := get_base_url cfg ++ endpoint;
  req_headers :=
    [("Authorization", get_auth_header cfg); ("Content-Type", "application/json")];
  req_json := body
|}.

(** The methods [make_request] has a branch for. *)
Definition supported (method : string) : bool :=
  String.eqb method "GET" || String.eqb method "POST"
  || String.eqb method "DELETE" || String.eqb method "PUT".

(** The method and the path of the request of an invocation that sends no
    body, once its inputs are accepted; [None] for the order-placing
    operations and for a history limit that is refused. *)
Definition route (op : operation) : option (string * string) :=
  let history (path ticker limit : string) :=
    match effective_limit limit with
    | Ok n => Some ("GET", with_ticker (path ++ of_int n) ticker)
    | Raise _ => None
    end in
  match op with
  | GetAccountInfo => Some ("GET", "/equity/account/info")
  | GetAccountCash => Some ("GET", "/equity/account/cash")
  | GetPortfolio => Some ("GET", "/equity/portfolio")
  | GetPosition ticker => Some ("GET", "/equity/portfolio/" ++ ticker)
  | ListExchanges => Some ("GET", "/equity/metadata/exchanges")
  | SearchInstruments _ => Some ("GET", "/equity/metadata/instruments")
  | GetActiveOrders => Some ("GET", "/equity/orders")
  | GetOrder order_id => Some ("GET", "/equity/orders/" ++ order_id)
  | CancelOrder order_id => Some ("DELETE", "/equity/orders/" ++ order_id)
  | GetOrderHistory ticker limit => history "/equity/history/orders?limit=" ticker limit
  | GetDividends ticker limit => history "/history/dividends?limit=" ticker limit
  | GetTransactions limit => history "/history/transactions?limit=" "" limit
  | ListPies => Some ("GET", "/equity/pies")
  | GetPie pie_id => Some ("GET", "/equity/pies/" ++ pie_id)
  | PlaceMarketOrder _ _ | PlaceLimitOrder _ _ _ _ | PlaceStopOrder _ _ _ _ => None
  end.


(** The formatter an operation applies to the decoded body of a successful
    reply; [None] when a numeric input of an order does not parse. *)
Definition formatter (cfg : Config) (op : operation) : option (value -> Exc string) :=
  match op with
  | GetAccountInfo => Some (account_info_text cfg)
  | GetAccountCash => Some (account_cash_text cfg)
  | GetPortfolio => Some (portfolio_text cfg)
  | GetPosition _ => Some (position_text cfg)
  | ListExchanges => Some exchanges_text
  | SearchInstruments query => Some (search_text query)
  | GetActiveOrders => Some (active_orders_text cfg)
  | GetOrder _ => Some (order_text cfg)
  | PlaceMarketOrder ticker quantity =>
      match PyParse.parse_float quantity with
      | Some q => Some (market_order_text cfg ticker q)
      | None => None
      end
  | PlaceLimitOrder ticker quantity price time_validity =>
      match PyParse.parse_float quantity, PyParse.parse_float price with
      | Some q, Some p => Some (priced_order_text cfg "Limit" ticker q p time_validity)
      | _, _ => None
      end
  | PlaceStopOrder ticker quantity price time_validity =>
      match PyParse.parse_float quantity, PyParse.parse_float price with
      | Some q, Some p => Some (priced_order_text cfg "Stop" ticker q p time_validity)
      | _, _ => None
      end
  | CancelOrder order_id => Some (cancelled_text cfg order_id)
  | GetOrderHistory _ _ => Some (order_history_text cfg)
  | GetDividends _ _ => Some (dividends_text cfg)
  | GetTransactions _ => Some (transactions_text cfg)
  | ListPies => Some (pies_text cfg)
  | GetPie _ => Some (pie_text cfg)
  end.

(** The handlers of the [try] block of an operation, applied to an
    exception. *)
Definition handler (op : operation) : exn -> string :=
  match op with
  | PlaceMarketOrder _ quantity => value_error_or (invalid_quantity quantity)
  | PlaceLimitOrder _ _ _ _ | PlaceStopOrder _ _ _ _ => value_error_or invalid_numeric
  | GetOrderHistory _ limit | GetDividends _ limit | GetTransactions limit =>
      value_error_or (invalid_limit limit)
  | _ => generic_error
  end.

(** An object: a decoded JSON object. *)
Definition is_object (v : value) : bool :=
  match v with VDict _ => true | _ => false end.



(** The operations without a request body whose formatter reads the fields
    of a single object. *)
Definition expects_object (op : operation) : bool :=
  match op with
  | GetAccountInfo | GetAccountCash | GetPosition _ | GetOrder _ | GetPie _ => true
  | _ => false
  end.

(** The text of the [AttributeError] that [v.get] raises on a value that is
    not an object. *)
Definition no_get_text (v : value) : string :=
  cat [marker; " Error: '"; type_name v; "' object has no attribute 'get'"].

(** The position of a character in a string, counted from [i]. *)
Fixpoint index_of (c : ascii) (s : string) (i : Z) : option Z :=
  match s with
  | EmptyString => None
  | String d s' => if Ascii.eqb c d then Some i else index_of c s' (i + 1)
  end.

(** The six bits a base64 character stands for. *)
Definition b64_value (c : ascii) : option Z := index_of c b64_alphabet 0.

Definition byte (n : Z) : ascii := ascii_of_nat (Z.to_nat n).

Definition pad : ascii := "="%char.

(** Decoding of standard base64, as the receiver of a credential header
    does it; [None] on anything that is not a padded base64 text. *)
Fixpoint b64decode (s : string) : option string :=
  match s with
  | EmptyString => Some EmptyString
  | String c1 (String c2 (String c3 (String c4 rest))) =>
      match b64_value c1, b64_value c2 with
      | Some v1, Some v2 =>
          let b1 := byte (v1 * 4 + v2 / 16) in
          if Ascii.eqb c3 pad then
            if Ascii.eqb c4 pad then
              match rest with EmptyString => Some (one b1) | _ => None end
            else None
          else
            match b64_value c3 with
            | Some v3 =>
                let b2 := byte (v2 mod 16 * 16 + v3 / 4) in
                if Ascii.eqb c4 pad then
                  match rest with
                  | EmptyString => Some (String b1 (one b2))
                  | _ => None
                  end
                else
                  match b64_value c4, b64decode rest with
                  | Some v4, Some tail =>
                      Some (String b1 (String b2 (String (byte (v3 mod 4 * 64 + v4)) tail)))
                  | _, _ => None
                  end
            | None => None
            end
      | _, _ => None
      end
  | _ => None
  end.

End Props.

(* ================================================================== *)
(** * Sample configurations, backends and payloads *)
(* ================================================================== *)

Module Samples.

Import PyStr Py Server.

Definition no_environ : string -> option string := fun _ => None.

Definition environ_with (selector : string) : string -> option string :=
  fun key => if String.eqb key Props.selector_key then Some selector else None.

Definition demo_cfg : Config :=
  {| API_KEY := "key"; API_SECRET := "secret"; ENVIRONMENT := "demo" |}.

Definition no_key_cfg : Config :=
  {| API_KEY := ""; API_SECRET := "secret"; ENVIRONMENT := "demo" |}.

(** A backend that answers every request with the same reply and decodes
    every body to the same payload. *)
Definition fixed_backend (answer : reply) (payload : value) : Backend := {|
  send := fun _ _ => answer;
  json_loads := fun _ => Ok payload;
  json_dumps := repr;
  status_error_str := fun _ r => "status " ++ of_int (status_code r)
|}.

Definition ok_reply : reply := Reply {| status_code := 200; text := "[]" |}.

Definition not_found : response := {| status_code := 404; text := "Not found" |}.

(** A backend whose server answers 404 to everything. *)
Definition rejecting_backend : Backend := fixed_backend (Reply not_found) VNone.

(** The request [get_position] issues for the ticker [AAPL] under
    [demo_cfg]. *)
Definition position_request : request := {|
  req_method := "GET";
  req_url := "https://demo.trading212.com/api/v0/equity/portfolio/AAPL";
  req_headers :=
    [("Authorization", "Basic a2V5OnNlY3JldA=="); ("Content-Type", "application/json")];
  req_json := None
|}.

(** The float [1234.5]. *)
Definition f1234_5 : PyFloat.float := PyFloat.of_decimal false 12345 (-1).

(** The account of the round-trip example. *)
Definition account_payload : value :=
  VDict [("id", VInt 1); ("currencyCode", VStr "USD"); ("cash", VFloat f1234_5)].


Definition apple (n : Z) : value :=
  VDict [("ticker", VStr ("AAPL" ++ of_int n)); ("name", VStr "Apple Inc")].

(** Eleven instruments that match the query [apple], and one that does not. *)
Definition instruments_payload : list value :=
  VDict [("ticker", VStr "MSFT"); ("name", VStr "Microsoft")]
    :: map apple [1; 2; 3; 4; 5; 6; 7; 8; 9; 10; 11].

Definition degenerate_position : value :=
  VDict [("ticker", VStr "X"); ("averagePrice", VInt 10); ("quantity", VInt 0);
         ("ppl", VInt 5)].

Definition open_position : value :=
  VDict [("ticker", VStr "X"); ("averagePrice", VInt 10); ("quantity", VInt 2);
         ("ppl", VInt 5)].

(** A backend whose transport fails on every request. *)
Definition failing_backend : Backend :=
  fixed_backend (Failed (Exn OtherError "All connection attempts failed")) VNone.

(** The order a limit order for ten shares at 100 submits. *)
Definition limit_order_data : value :=
  VDict [("ticker", VStr "AAPL"); ("quantity", VFloat (PyFloat.of_decimal false 10 0));
         ("limitPrice", VFloat (PyFloat.of_decimal false 100 0));
         ("timeValidity", VStr "DAY")].

Definition dividend (amount : Z) : value :=
  VDict [("ticker", VStr "AAPL"); ("amount", VInt amount)].

Definition schedule (n : Z) : value :=
  VDict [("openTime", VStr ("0" ++ of_int n)); ("closeTime", VStr ("1" ++ of_int n))].

Definition decode_error : exn :=
  Exn ValueError "Expecting value: line 1 column 1 (char 0)".

(** A backend whose JSON decoder refuses everything. *)
Definition undecodable_backend : Backend := {|
  send := fun _ _ => ok_reply;
  json_loads := fun _ => Raise decode_error;
  json_dumps := repr;
  status_error_str := fun _ r => "status " ++ of_int (status_code r)
|}.

End Samples.

(* ================================================================== *)
(** * Properties *)
(* ================================================================== *)

Import PyStr Py Server Props Samples.

(** ** Strings *)

Lemma append_empty_r (s : string) : s ++ "" = s.
Proof. induction s as [|c s IH]; simpl; [reflexivity | now rewrite IH]. Qed.

Lemma append_assoc (a b c : string) : (a ++ b) ++ c = a ++ (b ++ c).
Proof. induction a as [|x a IH]; simpl; [reflexivity | now rewrite IH]. Qed.

Lemma prefix_append (p s : string) : prefix p (p ++ s) = true.
Proof.
  induction p as [|c p IH]; simpl.
  - now destruct s.
  - destruct (ascii_dec c c) as [_|ne]; [exact IH | now elim ne].
Qed.

Lemma contains_of_prefix (p s : string) : prefix p s = true -> contains p s = true.
Proof. destruct s; simpl; intros ->; reflexivity. Qed.

Lemma contains_prefix (p s : string) : contains p (p ++ s) = true.
Proof. apply contains_of_prefix, prefix_append. Qed.

Lemma contains_append_r (sub a b : string) :
  contains sub b = true -> contains sub (a ++ b) = true.
Proof.
  intros H. induction a as [|c a IH]; simpl; [exact H|].
  rewrite IH. apply orb_true_r.
Qed.

Lemma contains_middle (sub a b : string) : contains sub (a ++ sub ++ b) = true.
Proof. apply contains_append_r, contains_prefix. Qed.

Lemma rev_onto_append (s acc : string) : rev_onto s acc = rev_onto s "" ++ acc.
Proof.
  revert acc. induction s as [|c s IH]; intros acc; simpl; [reflexivity|].
  rewrite (IH (String c acc)), (IH (String c "")), append_assoc. reflexivity.
Qed.

Lemma rev_append (a b : string) : PyStr.rev (a ++ b) = PyStr.rev b ++ PyStr.rev a.
Proof.
  unfold PyStr.rev. induction a as [|c a IH]; simpl.
  - now rewrite append_empty_r.
  - rewrite (rev_onto_append (a ++ b)), (rev_onto_append a), IH, append_assoc.
    reflexivity.
Qed.

Lemma endswith_append (a b : string) : endswith (a ++ b) b = true.
Proof. unfold endswith. rewrite rev_append. apply prefix_append. Qed.

(** Every letter is its own lower-case form or the upper-case form of it. *)
Lemma lower_char_cases (c : ascii) :
  c = lower_char c \/ c = upper_char (lower_char c).
Proof.
  destruct c as [[] [] [] [] [] [] [] []]; vm_compute; auto.
Qed.

(** The spellings that are equal to [live] when letter case is ignored. *)
Lemma live_spellings (v : string) :
  same_ignoring_case v "live" <->
  exists c1 c2 c3 c4,
    v = String c1 (String c2 (String c3 (String c4 "")))
    /\ (c1 = "l" \/ c1 = "L")%char /\ (c2 = "i" \/ c2 = "I")%char
    /\ (c3 = "v" \/ c3 = "V")%char /\ (c4 = "e" \/ c4 = "E")%char.
Proof.
  unfold same_ignoring_case. split.
  - intros H.
    destruct v as [|c1 [|c2 [|c3 [|c4 [|c5 v]]]]]; try discriminate H.
    simpl in H. injection H as H1 H2 H3 H4.
    exists c1, c2, c3, c4. split; [reflexivity|].
    pose proof (lower_char_cases c1) as L1. pose proof (lower_char_cases c2) as L2.
    pose proof (lower_char_cases c3) as L3. pose proof (lower_char_cases c4) as L4.
    rewrite H1 in L1. rewrite H2 in L2. rewrite H3 in L3. rewrite H4 in L4.
    repeat split; assumption.
  - intros (c1 & c2 & c3 & c4 & -> & H1 & H2 & H3 & H4).
    destruct H1 as [-> | ->], H2 as [-> | ->], H3 as [-> | ->], H4 as [-> | ->];
      reflexivity.
Qed.

(** ** The configuration resolver *)

Lemma selector_of_config (environ : string -> option string) :
  ENVIRONMENT (load_config environ)
  = match environ selector_key with Some v => v | None => "live" end.
Proof. reflexivity. Qed.

(** C1, as the code has it: an environment selector equal to [live],
    letter case ignored, selects the live endpoint; any other selector that
    is set selects the demo endpoint; a selector that is not set defaults
    to [live] and so selects the live endpoint. *)
Theorem base_url_resolution (environ : string -> option string) :
  (forall v, environ selector_key = Some v -> same_ignoring_case v "live" ->
     get_base_url (load_config environ) = LIVE_BASE_URL)
  /\ (forall v, environ selector_key = Some v -> ~ same_ignoring_case v "live" ->
        get_base_url (load_config environ) = DEMO_BASE_URL)
  /\ (environ selector_key = None ->
        get_base_url (load_config environ) = LIVE_BASE_URL).
Proof.
  unfold get_base_url, same_ignoring_case. rewrite selector_of_config.
  repeat split.
  - intros v -> H. rewrite H. reflexivity.
  - intros v -> H. destruct (String.eqb_spec (PyStr.lower v) "live") as [E|_].
    + elim H. exact E.
    + reflexivity.
  - intros ->. reflexivity.
Qed.

Lemma base_url_resolution_witness :
  get_base_url (load_config (environ_with "LiVe")) = LIVE_BASE_URL
  /\ get_base_url (load_config (environ_with "production")) = DEMO_BASE_URL
  /\ get_base_url (load_config no_environ) = LIVE_BASE_URL.
Proof.
  split; [|split].
  - apply (proj1 (base_url_resolution (environ_with "LiVe")) "LiVe"); reflexivity.
  - apply (proj1 (proj2 (base_url_resolution (environ_with "production"))) "production").
    + reflexivity.
    + unfold same_ignoring_case. simpl. discriminate.
  - apply (proj2 (proj2 (base_url_resolution no_environ))). reflexivity.
Defined.

(** C1 as stated fails: with no environment selector set the resolver
    yields the live endpoint, not the demo endpoint. *)
Lemma absent_selector_is_not_demo :
  no_environ selector_key = None
  /\ get_base_url (load_config no_environ) = LIVE_BASE_URL
  /\ get_base_url (load_config no_environ) <> DEMO_BASE_URL.
Proof. repeat split. discriminate. Qed.

(** ** The HTTP bridge *)


Lemma is_error_marked (s : string) : is_error (VStr (marker ++ s)) = true.
Proof. apply prefix_append. Qed.

Lemma make_request_unconfigured (cfg : Config) (backend : Backend) :
  API_KEY cfg = "" \/ API_SECRET cfg = "" ->
  forall method endpoint data log,
    make_request cfg backend method endpoint data log = (VStr not_configured, log).
Proof.
  intros H method endpoint data log. unfold make_request.
  destruct H as [-> | ->]; simpl; [|rewrite orb_true_r]; reflexivity.
Qed.

Lemma call_api_unconfigured (cfg : Config) (backend : Backend) :
  API_KEY cfg = "" \/ API_SECRET cfg = "" ->
  forall method endpoint data render log,
    call_api cfg backend method endpoint data render log = (Ok not_configured, log).
Proof.
  intros H method endpoint data render log.
  unfold call_api, bindM, io. rewrite (make_request_unconfigured cfg backend H).
  unfold not_configured. rewrite is_error_marked. reflexivity.
Qed.

(** Unfolding of the operations down to their [try] bodies. *)
Ltac unfold_operation :=
  unfold run, get_account_info, get_account_cash, get_portfolio, get_position,
    list_exchanges, search_instruments, get_active_orders, get_order,
    place_market_order, place_limit_order, place_stop_order, cancel_order,
    get_order_history, get_dividends, get_transactions, list_pies, get_pie.

(** Case analysis on the checks an operation makes before its request. *)
Ltac split_checks :=
  repeat match goal with
    | |- context [if blank ?s then _ else _] => destruct (blank s) eqn:?
    end;
  unfold early, try_except, bindM, lift;
  repeat match goal with
    | |- context [match to_float ?v with _ => _ end] => destruct (to_float v) eqn:?
    | |- context [match effective_limit ?s with _ => _ end] =>
        destruct (effective_limit s) eqn:?
    end.

Lemma to_float_str_raises (s : string) (e : exn) :
  to_float (VStr s) = Raise e -> is_ValueError e = true /\ PyParse.parse_float s = None.
Proof.
  simpl. destruct (PyParse.parse_float s); [discriminate|].
  intros H. injection H as <-. split; reflexivity.
Qed.

Lemma effective_limit_raises (s : string) (e : exn) :
  effective_limit s = Raise e ->
  is_ValueError e = true /\ PyParse.parse_int s = None /\ blank s = false.
Proof.
  unfold effective_limit, blank, to_int.
  destruct (PyStr.truthy (strip s)); [|discriminate].
  destruct (PyParse.parse_int s); [discriminate|].
  simpl. intros H. injection H as <-. repeat split.
Qed.

(** C2: with an empty API key or an empty API secret, [make_request] returns
    the not-configured text at once, whatever the method, the endpoint and
    the body, and issues no request; consequently no operation issues a
    request, and every operation that accepts its inputs returns the
    not-configured text. *)
Theorem not_configured_short_circuit (cfg : Config) (backend : Backend) :
  API_KEY cfg = "" \/ API_SECRET cfg = "" ->
  (forall method endpoint data log,
     make_request cfg backend method endpoint data log = (VStr not_configured, log))
  /\ (forall op log, snd (run cfg backend op log) = log)
  /\ (forall op log,
        fst (run cfg backend op log) = not_configured
        \/ rejection op (fst (run cfg backend op log))).
Proof.
  intros H. split; [exact (make_request_unconfigured cfg backend H)|]. split.
  - intros op log.
    destruct op; unfold_operation; split_checks;
      rewrite ?(call_api_unconfigured cfg backend H); reflexivity.
  - intros op log. unfold rejection.
    destruct op; unfold_operation; simpl required_inputs; simpl first_blank;
      split_checks; rewrite ?(call_api_unconfigured cfg backend H); simpl;
      try (left; reflexivity); try (right; left; reflexivity);
      right; right; unfold value_error_or;
      repeat match goal with
        | E : to_float (VStr _) = Raise _ |- _ =>
            apply to_float_str_raises in E; destruct E as [-> _]
        | E : effective_limit _ = Raise _ |- _ =>
            apply effective_limit_raises in E; destruct E as [-> _]
        end; reflexivity.
Qed.

Lemma not_configured_short_circuit_witness :
  make_request no_key_cfg (fixed_backend ok_reply VNone) "POST" "/equity/orders/market" "{}" []
  = (VStr not_configured, [])
  /\ run no_key_cfg (fixed_backend ok_reply VNone) GetAccountInfo [] = (not_configured, []).
Proof.
  destruct (not_configured_short_circuit no_key_cfg (fixed_backend ok_reply VNone))
    as [Hreq _].
  - left. reflexivity.
  - split; [apply Hreq | reflexivity].
Defined.

Lemma log_grows (log : list request) (req : request) : log <> (log ++ [req])%list.
Proof.
  intros H. apply (f_equal (@List.length request)) in H.
  rewrite length_app in H. simpl in H. lia.
Qed.

Lemma last_request_unique (log : list request) (a b : request) :
  (log ++ [a])%list = (log ++ [b])%list -> a = b.
Proof. intros H. apply app_inv_head in H. now injection H. Qed.

(** What [make_request] does once the credentials are checked: it issues no
    request, or it issues exactly one and its result is determined by the
    reply. *)
Lemma make_request_outcome (cfg : Config) (backend : Backend)
    (method endpoint data : string) (log log' : list request) (v : value) :
  make_request cfg backend method endpoint data log = (v, log') ->
  log' = log
  \/ exists req,
       log' = (log ++ [req])%list
       /\ v = match send backend log req with
              | Failed e => VStr (generic_error e)
              | Reply r =>
                  if is_success r then
                    match json_loads backend (text r) with
                    | Ok w => w
                    | Raise e => VStr (generic_error e)
                    end
                  else VStr (api_error backend req r)
              end.
Proof.
  unfold make_request.
  destruct (negb (PyStr.truthy (API_KEY cfg)) || negb (PyStr.truthy (API_SECRET cfg))).
  { intros H. injection H as _ <-. now left. }
  destruct (build_request _ _ _ _ _) as [[req|]|e].
  - intros H. right. exists req.
    destruct (send backend log req) as [r|e].
    + destruct (is_success r).
      * destruct (json_loads backend (text r)); injection H as <- <-; split; reflexivity.
      * injection H as <- <-. split; reflexivity.
    + injection H as <- <-. split; reflexivity.
  - intros H. injection H as _ <-. now left.
  - intros H. injection H as _ <-. now left.
Qed.

Lemma api_error_marked (backend : Backend) (req : request) (r : response) :
  is_error (VStr (api_error backend req r)) = true.
Proof. apply prefix_append. Qed.

(** A request answered with a status that is not a success makes the [try]
    body return the API-error text, whatever the formatter. *)
Lemma call_api_rejected (cfg : Config) (backend : Backend)
    (method endpoint data : string) (render : value -> Exc string)
    (log log' : list request) (res : Exc string) (req : request) (r : response) :
  call_api cfg backend method endpoint data render log = (res, log') ->
  log' = (log ++ [req])%list ->
  send backend log req = Reply r ->
  is_success r = false ->
  res = Ok (api_error backend req r).
Proof.
  unfold call_api, bindM, io.
  destruct (make_request cfg backend method endpoint data log) as [v l] eqn:E.
  intros H Hlog Hsend Hfail.
  assert (l = log') as ->.
  { destruct (is_error v); [unfold ret in H | unfold lift in H]; now injection H. }
  apply make_request_outcome in E. destruct E as [-> | (req' & E & ->)].
  - elim (log_grows log req). exact Hlog.
  - rewrite Hlog in E. apply last_request_unique in E. subst req'.
    rewrite Hsend, Hfail in H. rewrite api_error_marked in H.
    unfold ret in H. simpl in H. now injection H.
Qed.

Lemma status_not_success (r : response) :
  ~ (200 <= status_code r <= 299) -> is_success r = false.
Proof.
  intros H. unfold is_success.
  destruct (200 <=? status_code r) eqn:E1; [|reflexivity].
  destruct (status_code r <=? 299) eqn:E2; [|reflexivity].
  apply Z.leb_le in E1, E2. elim H. lia.
Qed.

(** An operation that returns before its request leaves the log as it
    was. *)
Ltac close_rejected :=
  try match goal with
    | |- (_, ?l) = (_, (?l ++ [_])%list) -> _ =>
        let H := fresh in intros H; injection H as _ H; elim (log_grows _ _ H)
    end.

(** C3: when the remote server answers the request of an operation with a
    status code outside 200-299, the operation returns the failure marker,
    [API Error], the numeric status code in parentheses, and then the body
    of the response verbatim, or the text of the status exception when the
    body is empty. *)
Theorem non_success_status_text (cfg : Config) (backend : Backend) (op : operation)
    (log : list request) (result : string) (req : request) (r : response) :
  run cfg backend op log = (result, (log ++ [req])%list) ->
  send backend log req = Reply r ->
  ~ (200 <= status_code r <= 299) ->
  result = cat [marker; " API Error ("; of_int (status_code r); "): ";
                if PyStr.truthy (text r) then text r else status_error_str backend req r]
  /\ startswith result marker = true
  /\ contains (of_int (status_code r)) result = true
  /\ (text r <> "" -> endswith result (text r) = true).
Proof.
  intros Hrun Hsend Hstatus. apply status_not_success in Hstatus.
  assert (result = api_error backend req r) as ->.
  { revert Hrun. destruct op; unfold_operation; split_checks; close_rejected;
      match goal with
      | |- context [call_api ?c ?b ?m ?e ?d ?f ?l] =>
          destruct (call_api c b m e d f l) as [res l'] eqn:E;
          intros H;
          assert (l' = (log ++ [req])%list) as -> by (destruct res; now injection H);
          rewrite (call_api_rejected _ _ _ _ _ _ _ _ _ _ _ E eq_refl Hsend Hstatus) in H;
          now injection H
      end. }
  unfold api_error.
  set (code := of_int (status_code r)).
  set (msg := if PyStr.truthy (text r) then text r else status_error_str backend req r).
  split; [reflexivity|]. split; [apply prefix_append|]. split.
  - change (cat [marker; " API Error ("; code; "): "; msg])
      with ((marker ++ " API Error (") ++ code ++ ("): " ++ msg ++ "")).
    apply contains_middle.
  - intros Hbody. subst msg. destruct (text r) as [|c t]; [now elim Hbody|].
    change (PyStr.truthy (String c t)) with true. cbv iota.
    change (cat [marker; " API Error ("; code; "): "; String c t])
      with (marker ++ " API Error (" ++ code ++ "): " ++ String c t ++ "").
    rewrite append_empty_r, <- !append_assoc. apply endswith_append.
Qed.

Lemma non_success_status_text_witness :
  run demo_cfg rejecting_backend (GetPosition "AAPL") []
  = ("❌ API Error (404): Not found", [position_request])
  /\ startswith "❌ API Error (404): Not found" marker = true
  /\ contains "404" "❌ API Error (404): Not found" = true
  /\ endswith "❌ API Error (404): Not found" "Not found" = true.
Proof.
  assert (Hrun : run demo_cfg rejecting_backend (GetPosition "AAPL") []
                 = ("❌ API Error (404): Not found", ([] ++ [position_request])%list))
    by (vm_compute; reflexivity).
  assert (Hstatus : ~ (200 <= status_code not_found <= 299)) by (simpl; lia).
  destruct (non_success_status_text demo_cfg rejecting_backend (GetPosition "AAPL") []
              _ position_request not_found Hrun eq_refl Hstatus)
    as (_ & Hmark & Hcode & Hbody).
  split; [exact Hrun|]. split; [exact Hmark|]. split; [exact Hcode|].
  apply Hbody. discriminate.
Defined.

(** ** Currency formatting *)



(** ** The return percentage of a position *)




Lemma Ok_inj {A : Type} (a b : A) : Ok a = Ok b -> a = b.
Proof. intros H. now injection H. Qed.

(** Case analysis on every [match] in a hypothesis. *)
Ltac split_matches H :=
  repeat match type of H with
    | context [match ?x with _ => _ end] => destruct x eqn:?
    end.




Lemma return_percent_positive (ppl avg_price quantity cost : value) :
  mul avg_price quantity = Ok cost -> gt_int cost 0 = Ok true ->
  return_percent ppl avg_price quantity
  = (ratio <- div ppl cost ;; mul ratio (VInt 100))%exc.
Proof.
  intros Hmul Hgt. unfold return_percent. rewrite Hmul. simpl bind.
  rewrite Hgt. reflexivity.
Qed.











(** The sample positions, as displayed. *)
Lemma sample_positions_displayed :
  (exists text, position_text demo_cfg open_position = Ok text
                /\ contains "- Return: +25.00%" text = true)
  /\ (exists text, position_text demo_cfg degenerate_position = Ok text
                   /\ contains "- Return: +0.00%" text = true).
Proof. split; eexists; split; vm_compute; reflexivity. Qed.

(** ** The history limit *)

Lemma configured_passes (cfg : Config) :
  configured cfg ->
  negb (PyStr.truthy (API_KEY cfg)) || negb (PyStr.truthy (API_SECRET cfg)) = false.
Proof.
  intros [Hk Hs]. destruct (API_KEY cfg); [now elim Hk|].
  destruct (API_SECRET cfg); [now elim Hs|]. reflexivity.
Qed.



Lemma try_except_log (body : M string) (handler : exn -> string) (log : list request) :
  snd (try_except body handler log) = snd (body log).
Proof. unfold try_except. destruct (body log) as [[s|e] l]; reflexivity. Qed.



Lemma effective_limit_capped (limit : string) (m : Z) :
  effective_limit limit = Ok m -> m <= 50.
Proof.
  unfold effective_limit, bind.
  destruct (if PyStr.truthy (strip limit) then to_int limit else Ok 50); [|discriminate].
  intros H. apply Ok_inj in H. subst m. apply Z.le_min_r.
Qed.



(** ** Input validation *)













(** The sample invocation returns the text for the quantity. *)
Lemma blank_quantity_sample :
  run demo_cfg (fixed_backend ok_reply VNone) (PlaceLimitOrder "AAPL" "   " "100" "DAY") []
  = (quantity_required, []).
Proof. reflexivity. Qed.

(** ** Numeric inputs *)











Lemma blank_pair (a t : string) (rest : list (string * string)) :
  first_blank ((a, t) :: rest) = None -> blank a = false /\ first_blank rest = None.
Proof. simpl. destruct (blank a); [discriminate | now split]. Qed.




(** ** Instrument search *)

Lemma mapM_Forall2 {A B : Type} (f : A -> Exc B) (l : list A) (bs : list B) :
  mapM f l = Ok bs -> Forall2 (fun a b => f a = Ok b) l bs.
Proof.
  revert bs. induction l as [|a l IH]; simpl; intros bs H.
  - apply Ok_inj in H. subst bs. constructor.
  - unfold bind in H. destruct (f a) as [b|] eqn:Ea; [|discriminate H].
    destruct (mapM f l) as [bs'|]; [|discriminate H].
    apply Ok_inj in H. subst bs. constructor; [exact Ea | now apply IH].
Qed.

Lemma mapM_total {A B : Type} (f : A -> Exc B) (l : list A) :
  Forall (fun a => exists b, f a = Ok b) l -> exists bs, mapM f l = Ok bs.
Proof.
  induction 1 as [|a l [b Hb] _ [bs Hbs]]; simpl.
  - now exists [].
  - rewrite Hb, Hbs. now exists (b :: bs).
Qed.






Lemma Forall_firstn {A : Type} (P : A -> Prop) (n : nat) (l : list A) :
  Forall P l -> Forall P (firstn n l).
Proof.
  intros H. revert n. induction H as [|a l Ha _ IH]; intros [|n]; simpl; constructor; auto.
Qed.







(** The sample search, as displayed: ten entries and the note. *)
Lemma sample_search_displayed :
  let result :=
    run demo_cfg (fixed_backend ok_reply (VList instruments_payload))
      (SearchInstruments "APPLE") [] in
  snd result = [get_request demo_cfg "/equity/metadata/instruments"]
  /\ contains "AAPL10 - Apple Inc" (fst result) = true
  /\ contains "AAPL11" (fst result) = false
  /\ contains "MSFT" (fst result) = false
  /\ endswith (fst result) ("... and 1 more results" ++ nl) = true.
Proof. vm_compute. repeat split. Qed.

(** ** The environment line *)

Lemma success_marked (s : string) : success (marker ++ s) = false.
Proof. unfold success, startswith. now rewrite prefix_append. Qed.

Lemma generic_error_marked (e : exn) : success (generic_error e) = false.
Proof. apply success_marked. Qed.

Lemma value_error_or_marked (s : string) (e : exn) :
  success (value_error_or (marker ++ s) e) = false.
Proof. unfold value_error_or. destruct (is_ValueError e); apply success_marked. Qed.

(** What a [try] body hands back: a failure text, or what the formatter
    makes of some value. *)
Lemma call_api_result (cfg : Config) (backend : Backend) (method endpoint data : string)
    (render : value -> Exc string) (log log' : list request) (res : Exc string) :
  call_api cfg backend method endpoint data render log = (res, log') ->
  (exists s, res = Ok s /\ success s = false) \/ (exists v, res = render v).
Proof.
  unfold call_api, bindM, io.
  destruct (make_request cfg backend method endpoint data log) as [v l].
  destruct (is_error v) eqn:E.
  - intros H. unfold ret in H. injection H as <- _. left. exists (str v).
    split; [reflexivity|]. destruct v; try discriminate E.
    unfold success. simpl in *. now rewrite E.
  - intros H. unfold lift in H. injection H as <- _. right. now exists v.
Qed.

(** A successful result of a [try] block around a request is the rendered
    text of some value. *)
Lemma try_call_success (cfg : Config) (backend : Backend) (method endpoint data : string)
    (render : value -> Exc string) (handler : exn -> string)
    (log log' : list request) (result : string) :
  (forall e, success (handler e) = false) ->
  try_except (call_api cfg backend method endpoint data render) handler log = (result, log') ->
  success result = true ->
  exists v, render v = Ok result.
Proof.
  intros Hh. unfold try_except.
  destruct (call_api cfg backend method endpoint data render log) as [res l] eqn:E.
  apply call_api_result in E. intros H Hs.
  destruct E as [(s & -> & Hm) | (v & ->)].
  - injection H as <- _. rewrite Hs in Hm. discriminate.
  - exists v. destruct (render v) as [s|e].
    + now injection H as <- _.
    + injection H as <- _. rewrite Hh in Hs. discriminate.
Qed.

Lemma try_lift {A : Type} (e : Exc A) (k : A -> M string) (handler : exn -> string)
    (log : list request) :
  try_except (bindM (lift e) k) handler log
  = match e with
    | Ok a => try_except (k a) handler log
    | Raise x => (handler x, log)
    end.
Proof. unfold try_except, bindM, lift. destruct e; reflexivity. Qed.

















Lemma invalid_texts_marked (quantity limit : string) (e : exn) :
  success (value_error_or (invalid_quantity quantity) e) = false
  /\ success (value_error_or invalid_numeric e) = false
  /\ success (value_error_or (invalid_limit limit) e) = false.
Proof. repeat split; apply value_error_or_marked. Qed.


(** An operation that returned a required-input text did not succeed. *)
Ltac early_return Hrun Hs :=
  unfold early in Hrun; injection Hrun as <- _; vm_compute in Hs; discriminate Hs.

(** A successful result comes from the formatter of a [try] block whose
    handlers all return failure texts. *)
Ltac rendered Hrun Hs v Hv :=
  first
    [ destruct (try_call_success _ _ _ _ _ _ _ _ _ _ generic_error_marked Hrun Hs) as [v Hv]
    | destruct (try_call_success _ _ _ _ _ _ _ _ _ _
                  (fun e => proj1 (invalid_texts_marked _ "" e)) Hrun Hs) as [v Hv]
    | destruct (try_call_success _ _ _ _ _ _ _ _ _ _
                  (fun e => proj1 (proj2 (invalid_texts_marked "" "" e))) Hrun Hs) as [v Hv]
    | destruct (try_call_success _ _ _ _ _ _ _ _ _ _
                  (fun e => proj2 (proj2 (invalid_texts_marked "" _ e))) Hrun Hs) as [v Hv] ].

(** A conversion that raised made the operation return a failure text. *)
Ltac raised Hrun Hs :=
  injection Hrun as <- _;
  first [ rewrite (proj1 (invalid_texts_marked _ "" _)) in Hs
        | rewrite (proj1 (proj2 (invalid_texts_marked "" "" _))) in Hs
        | rewrite (proj2 (proj2 (invalid_texts_marked "" _ _))) in Hs ];
  discriminate Hs.





(** Nor does a successful search name the environment. *)
Lemma search_text_lacks_environment :
  let result :=
    fst (run demo_cfg (fixed_backend ok_reply (VList instruments_payload))
           (SearchInstruments "msft") []) in
  success result = true
  /\ endswith result (PyStr.upper (ENVIRONMENT demo_cfg)) = false.
Proof. vm_compute. repeat split. Qed.

(** The message for an empty payload carries no environment either. *)
Lemma empty_portfolio_lacks_environment :
  run demo_cfg (fixed_backend ok_reply (VList [])) GetPortfolio []
  = (portfolio_empty, [get_request demo_cfg "/equity/portfolio"])
  /\ success portfolio_empty = true
  /\ endswith portfolio_empty (PyStr.upper (ENVIRONMENT demo_cfg)) = false.
Proof. vm_compute. repeat split. Qed.

(* ================================================================== *)
(** * Further properties of the bridge and of the operations *)
(* ================================================================== *)

(** ** The HTTP bridge, request by request *)

Lemma build_request_without_body (backend : Backend) (method url : string)
    (headers : list (string * string)) (data : string) :
  method = "GET" \/ method = "DELETE" ->
  build_request backend method url headers data
  = Ok (Some (Build_request method url headers None)).
Proof. intros [-> | ->]; reflexivity. Qed.

Lemma build_request_with_body (backend : Backend) (method url : string)
    (headers : list (string * string)) (data : string) :
  method = "POST" \/ method = "PUT" ->
  build_request backend method url headers data
  = (json_data <- (if PyStr.truthy data then json_loads backend data else Ok (VDict [])) ;;
     Ok (Some (Build_request method url headers (Some json_data))))%exc.
Proof. intros [-> | ->]; reflexivity. Qed.

Lemma build_request_unsupported (backend : Backend) (method url : string)
    (headers : list (string * string)) (data : string) :
  supported method = false ->
  build_request backend method url headers data = Ok None.
Proof.
  unfold supported, build_request. intros H.
  apply orb_false_iff in H. destruct H as [H Hput].
  apply orb_false_iff in H. destruct H as [H Hdelete].
  apply orb_false_iff in H. destruct H as [Hget Hpost].
  rewrite Hget, Hpost, Hdelete, Hput. reflexivity.
Qed.

(** Once a request is built, the bridge issues it and nothing else. *)
Lemma make_request_issues (cfg : Config) (backend : Backend)
    (method endpoint data : string) (body : option value) (log : list request) :
  configured cfg ->
  build_request backend method (get_base_url cfg ++ endpoint)
    [("Authorization", get_auth_header cfg); ("Content-Type", "application/json")] data
  = Ok (Some (request_of cfg method endpoint body)) ->
  snd (make_request cfg backend method endpoint data log)
  = (log ++ [request_of cfg method endpoint body])%list.
Proof.
  intros Hcfg Hbuild. unfold make_request. rewrite (configured_passes cfg Hcfg).
  cbv zeta. rewrite Hbuild.
  destruct (send backend log _) as [r|e]; [|reflexivity].
  destruct (is_success r); [|reflexivity].
  destruct (json_loads backend (text r)); reflexivity.
Qed.

(** With credentials present, a supported method makes the bridge issue
    exactly one request: to the base URL followed by the endpoint, with the
    credential header and the JSON content type.  GET and DELETE carry no
    body; POST and PUT carry the decoded [data], or the empty object when
    [data] is empty. *)
Theorem bridge_issues_one_request (cfg : Config) (backend : Backend)
    (method endpoint data : string) (log : list request) :
  configured cfg ->
  (method = "GET" \/ method = "DELETE" ->
     snd (make_request cfg backend method endpoint data log)
     = (log ++ [request_of cfg method endpoint None])%list)
  /\ (method = "POST" \/ method = "PUT" -> data = "" ->
        snd (make_request cfg backend method endpoint data log)
        = (log ++ [request_of cfg method endpoint (Some (VDict []))])%list)
  /\ (method = "POST" \/ method = "PUT" ->
      forall body, data <> "" -> json_loads backend data = Ok body ->
        snd (make_request cfg backend method endpoint data log)
        = (log ++ [request_of cfg method endpoint (Some body)])%list).
Proof.
  intros Hcfg. split; [|split].
  - intros Hm. apply make_request_issues; [exact Hcfg|].
    now apply build_request_without_body.
  - intros Hm ->. apply make_request_issues; [exact Hcfg|].
    rewrite (build_request_with_body _ _ _ _ _ Hm). reflexivity.
  - intros Hm body Hdata Hjson. apply make_request_issues; [exact Hcfg|].
    rewrite (build_request_with_body _ _ _ _ _ Hm).
    destruct data; [now elim Hdata|]. cbn [PyStr.truthy]. rewrite Hjson. reflexivity.
Qed.

Lemma bridge_issues_one_request_witness :
  snd (make_request demo_cfg (fixed_backend ok_reply limit_order_data) "GET"
         "/equity/portfolio/AAPL" "" [])
  = [position_request]
  /\ snd (make_request demo_cfg (fixed_backend ok_reply limit_order_data) "PUT"
            "/equity/pies/1" "" [])
     = [request_of demo_cfg "PUT" "/equity/pies/1" (Some (VDict []))]
  /\ snd (make_request demo_cfg (fixed_backend ok_reply limit_order_data) "POST"
            "/equity/orders/limit" "{...}" [])
     = [request_of demo_cfg "POST" "/equity/orders/limit" (Some limit_order_data)].
Proof.
  assert (Hcfg : configured demo_cfg) by (split; discriminate).
  split; [|split].
  - exact (proj1 (bridge_issues_one_request demo_cfg
                    (fixed_backend ok_reply limit_order_data) "GET"
                    "/equity/portfolio/AAPL" "" [] Hcfg) (or_introl eq_refl)).
  - exact (proj1 (proj2 (bridge_issues_one_request demo_cfg
                    (fixed_backend ok_reply limit_order_data) "PUT"
                    "/equity/pies/1" "" [] Hcfg)) (or_intror eq_refl) eq_refl).
  - apply (proj2 (proj2 (bridge_issues_one_request demo_cfg
                    (fixed_backend ok_reply limit_order_data) "POST"
                    "/equity/orders/limit" "{...}" [] Hcfg)) (or_introl eq_refl)).
    + discriminate.
    + reflexivity.
Defined.

(** The bridge issues no request for a method it has no branch for, nor for
    a POST or PUT whose [data] does not decode: it returns the
    unsupported-method text, or the text of the decoding error. *)
Theorem bridge_refuses_without_request (cfg : Config) (backend : Backend)
    (method endpoint data : string) (log : list request) :
  configured cfg ->
  (supported method = false ->
     make_request cfg backend method endpoint data log
     = (VStr (marker ++ " Error: Unsupported method " ++ method), log))
  /\ (method = "POST" \/ method = "PUT" ->
      forall e, data <> "" -> json_loads backend data = Raise e ->
        make_request cfg backend method endpoint data log
        = (VStr (marker ++ " Error: " ++ exn_msg e), log)).
Proof.
  intros Hcfg. split.
  - intros Hm. unfold make_request. rewrite (configured_passes cfg Hcfg).
    cbv zeta. rewrite (build_request_unsupported _ _ _ _ _ Hm). reflexivity.
  - intros Hm e Hdata Hjson. unfold make_request. rewrite (configured_passes cfg Hcfg).
    cbv zeta. rewrite (build_request_with_body _ _ _ _ _ Hm).
    destruct data; [now elim Hdata|]. cbn [PyStr.truthy]. rewrite Hjson. reflexivity.
Qed.

Lemma bridge_refuses_without_request_witness :
  make_request demo_cfg (fixed_backend ok_reply VNone) "PATCH" "/equity/pies/1" "" []
  = (VStr "❌ Error: Unsupported method PATCH", [])
  /\ make_request demo_cfg undecodable_backend "POST" "/equity/orders/market" "not json" []
     = (VStr "❌ Error: Expecting value: line 1 column 1 (char 0)", []).
Proof.
  assert (Hcfg : configured demo_cfg) by (split; discriminate).
  split.
  - exact (proj1 (bridge_refuses_without_request demo_cfg (fixed_backend ok_reply VNone)
                    "PATCH" "/equity/pies/1" "" [] Hcfg) eq_refl).
  - refine (proj2 (bridge_refuses_without_request demo_cfg undecodable_backend "POST"
                     "/equity/orders/market" "not json" [] Hcfg)
              (or_introl eq_refl) decode_error _ eq_refl).
    discriminate.
Defined.

(** What the bridge returns once its request is issued: the text of the
    transport exception; on a success status the decoded body, or the text
    of the decoding error. *)
Theorem bridge_result_by_reply (cfg : Config) (backend : Backend)
    (method endpoint data : string) (log : list request) (req : request) :
  snd (make_request cfg backend method endpoint data log) = (log ++ [req])%list ->
  (forall e, send backend log req = Failed e ->
     fst (make_request cfg backend method endpoint data log)
     = VStr (marker ++ " Error: " ++ exn_msg e))
  /\ (forall r v, send backend log req = Reply r -> 200 <= status_code r <= 299 ->
        json_loads backend (text r) = Ok v ->
        fst (make_request cfg backend method endpoint data log) = v)
  /\ (forall r e, send backend log req = Reply r -> 200 <= status_code r <= 299 ->
        json_loads backend (text r) = Raise e ->
        fst (make_request cfg backend method endpoint data log)
        = VStr (marker ++ " Error: " ++ exn_msg e)).
Proof.
  intros Hlog.
  destruct (make_request cfg backend method endpoint data log) as [v log'] eqn:E.
  simpl in Hlog. subst log'. apply make_request_outcome in E.
  destruct E as [E | (req' & E & ->)]; [elim (log_grows log req); now symmetry|].
  apply last_request_unique in E. subst req'.
  assert (Hok : forall r, 200 <= status_code r <= 299 -> is_success r = true).
  { intros r [H1 H2]. unfold is_success. apply andb_true_iff.
    split; apply Z.leb_le; assumption. }
  cbn [fst]. repeat split.
  - intros e ->. reflexivity.
  - intros r v -> Hs ->. rewrite (Hok r Hs). reflexivity.
  - intros r e -> Hs ->. rewrite (Hok r Hs). reflexivity.
Qed.

Lemma bridge_result_by_reply_witness :
  fst (make_request demo_cfg failing_backend "GET" "/equity/portfolio/AAPL" "" [])
  = VStr "❌ Error: All connection attempts failed"
  /\ fst (make_request demo_cfg (fixed_backend ok_reply account_payload) "GET"
            "/equity/portfolio/AAPL" "" [])
     = account_payload.
Proof.
  split.
  - exact (proj1 (bridge_result_by_reply demo_cfg failing_backend "GET"
                    "/equity/portfolio/AAPL" "" [] position_request eq_refl) _ eq_refl).
  - refine (proj1 (proj2 (bridge_result_by_reply demo_cfg
                    (fixed_backend ok_reply account_payload) "GET"
                    "/equity/portfolio/AAPL" "" [] position_request eq_refl))
              {| status_code := 200; text := "[]" |} account_payload eq_refl _ eq_refl).
    simpl. lia.
Defined.

(** ** Operations and their single request *)

Lemma build_request_shape (backend : Backend) (method url : string)
    (headers : list (string * string)) (data : string) (req : request) :
  build_request backend method url headers data = Ok (Some req) ->
  exists body, req = Build_request method url headers body.
Proof.
  unfold build_request, bind. intros H.
  split_matches H; try discriminate H; apply Ok_inj in H; injection H as <-;
    eexists; reflexivity.
Qed.

Lemma make_request_log (cfg : Config) (backend : Backend)
    (method endpoint data : string) (log : list request) :
  snd (make_request cfg backend method endpoint data log) = log
  \/ exists body,
       snd (make_request cfg backend method endpoint data log)
       = (log ++ [request_of cfg method endpoint body])%list.
Proof.
  unfold make_request.
  destruct (negb (PyStr.truthy (API_KEY cfg)) || negb (PyStr.truthy (API_SECRET cfg)));
    [now left|].
  cbv zeta. destruct (build_request _ _ _ _ _) as [[req|]|e] eqn:E; try (now left).
  right. apply build_request_shape in E. destruct E as [body ->]. exists body.
  fold (request_of cfg method endpoint body).
  destruct (send backend log _) as [r|e]; [|reflexivity].
  destruct (is_success r); [|reflexivity].
  destruct (json_loads backend (text r)); reflexivity.
Qed.

Lemma call_api_log (cfg : Config) (backend : Backend) (method endpoint data : string)
    (render : value -> Exc string) (log : list request) :
  snd (call_api cfg backend method endpoint data render log)
  = snd (make_request cfg backend method endpoint data log).
Proof.
  unfold call_api, bindM, io.
  destruct (make_request cfg backend method endpoint data log) as [v l].
  destruct (is_error v); reflexivity.
Qed.

(** The log after an operation, by cases on its checks. *)
Ltac log_of_operation :=
  repeat match goal with
    | |- context [if blank ?s then _ else _] => destruct (blank s)
    end;
  unfold early; cbn [snd];
  rewrite ?try_except_log; unfold bindM, lift;
  repeat match goal with
    | |- context [match to_float ?v with _ => _ end] => destruct (to_float v)
    | |- context [match effective_limit ?s with _ => _ end] => destruct (effective_limit s)
    end;
  cbn [snd]; rewrite ?call_api_log.

Lemma run_log (cfg : Config) (backend : Backend) (op : operation) (log : list request) :
  snd (run cfg backend op log) = log
  \/ exists method endpoint body,
       snd (run cfg backend op log)
       = (log ++ [request_of cfg method endpoint body])%list.
Proof.
  destruct op; unfold_operation; log_of_operation; try (now left);
    match goal with
    | |- context [make_request ?c ?b ?m ?e ?d ?l] =>
        destruct (make_request_log c b m e d l) as [H | [body H]];
        [ left; exact H | right; exists m, e, body; exact H ]
    end.
Qed.

(** Whatever the inputs and whatever the server does, an operation issues
    at most one request, and that request goes to the resolved base URL
    with the credential header and the JSON content type. *)
Theorem operations_issue_at_most_one_request (cfg : Config) (backend : Backend)
    (op : operation) (log : list request) :
  snd (run cfg backend op log) = log
  \/ exists req,
       snd (run cfg backend op log) = (log ++ [req])%list
       /\ startswith (req_url req) (get_base_url cfg) = true
       /\ req_headers req
          = [("Authorization", get_auth_header cfg); ("Content-Type", "application/json")].
Proof.
  destruct (run_log cfg backend op log) as [H | (method & endpoint & body & H)];
    [now left|].
  right. exists (request_of cfg method endpoint body).
  split; [exact H|]. split; [apply prefix_append | reflexivity].
Qed.

Lemma call_api_unfold (cfg : Config) (backend : Backend) (method endpoint data : string)
    (render : value -> Exc string) (log : list request) :
  call_api cfg backend method endpoint data render log
  = (let v := fst (make_request cfg backend method endpoint data log) in
     if is_error v then Ok (str v) else render v,
     snd (make_request cfg backend method endpoint data log)).
Proof.
  unfold call_api, bindM, io.
  destruct (make_request cfg backend method endpoint data log) as [v l]. cbn [fst snd].
  destruct (is_error v); reflexivity.
Qed.

(** A request that fails in transport makes the [try] body return the text
    of the exception. *)
Lemma call_api_failed (cfg : Config) (backend : Backend)
    (method endpoint data : string) (render : value -> Exc string)
    (log log' : list request) (res : Exc string) (req : request) (e : exn) :
  call_api cfg backend method endpoint data render log = (res, log') ->
  log' = (log ++ [req])%list ->
  send backend log req = Failed e ->
  res = Ok (generic_error e).
Proof.
  rewrite call_api_unfold.
  destruct (make_request cfg backend method endpoint data log) as [v l] eqn:E.
  cbn [fst snd]. intros H Hlog Hsend. injection H as <- ->.
  apply make_request_outcome in E. destruct E as [E | (req' & E & ->)].
  - elim (log_grows log req). congruence.
  - rewrite Hlog in E. apply last_request_unique in E. subst req'.
    rewrite Hsend. unfold generic_error. rewrite is_error_marked. reflexivity.
Qed.

(** When the request of an operation fails in transport (DNS, connection,
    timeout), the operation returns the failure marker, [Error:] and the
    text of the exception. *)
Theorem transport_failure_text (cfg : Config) (backend : Backend) (op : operation)
    (log : list request) (result : string) (req : request) (e : exn) :
  run cfg backend op log = (result, (log ++ [req])%list) ->
  send backend log req = Failed e ->
  result = marker ++ " Error: " ++ exn_msg e.
Proof.
  intros Hrun Hsend. revert Hrun.
  destruct op; unfold_operation; split_checks; close_rejected;
    match goal with
    | |- context [call_api ?c ?b ?m ?ep ?d ?f ?l] =>
        destruct (call_api c b m ep d f l) as [res l'] eqn:E;
        intros H;
        assert (l' = (log ++ [req])%list) as -> by (destruct res; now injection H);
        rewrite (call_api_failed _ _ _ _ _ _ _ _ _ _ _ E eq_refl Hsend) in H;
        now injection H
    end.
Qed.

Lemma transport_failure_text_witness :
  run demo_cfg failing_backend (GetPosition "AAPL") []
  = ("❌ Error: All connection attempts failed", [position_request]).
Proof.
  assert (Hrun : run demo_cfg failing_backend (GetPosition "AAPL") []
                 = (fst (run demo_cfg failing_backend (GetPosition "AAPL") []),
                    ([] ++ [position_request])%list))
    by (vm_compute; reflexivity).
  pose proof (transport_failure_text demo_cfg failing_backend (GetPosition "AAPL") [] _
                position_request _ Hrun eq_refl) as Htext.
  rewrite Hrun, Htext. reflexivity.
Defined.

Lemma success_status (r : response) : 200 <= status_code r <= 299 -> is_success r = true.
Proof.
  intros [H1 H2]. unfold is_success. apply andb_true_iff. split; apply Z.leb_le; assumption.
Qed.

(** The [try] body of an operation without a request body, on a reply with
    a success status whose body decodes. *)
Lemma call_api_replied (cfg : Config) (backend : Backend) (method endpoint : string)
    (render : value -> Exc string) (log : list request) (r : response) (v : value) :
  configured cfg ->
  method = "GET" \/ method = "DELETE" ->
  send backend log (request_of cfg method endpoint None) = Reply r ->
  is_success r = true ->
  json_loads backend (text r) = Ok v ->
  call_api cfg backend method endpoint "" render log
  = (if is_error v then Ok (str v) else render v,
     (log ++ [request_of cfg method endpoint None])%list).
Proof.
  intros Hcfg Hm Hsend Hok Hjson. rewrite call_api_unfold. unfold make_request.
  rewrite (configured_passes cfg Hcfg). cbv zeta.
  rewrite (build_request_without_body _ _ _ _ _ Hm).
  fold (request_of cfg method endpoint None).
  rewrite Hsend, Hok, Hjson. reflexivity.
Qed.

Lemma route_method (op : operation) (method path : string) :
  route op = Some (method, path) -> method = "GET" \/ method = "DELETE".
Proof.
  destruct op; cbn [route]; intros H;
    try (destruct (effective_limit limit); [|discriminate H]);
    try discriminate H; injection H as <- _; auto.
Qed.

Lemma try_except_value (res : Exc string) (l : list request) (handler : exn -> string)
    (body : M string) (log : list request) :
  body log = (res, l) ->
  try_except body handler log
  = (match res with Ok s => s | Raise e => handler e end, l).
Proof. intros H. unfold try_except. rewrite H. destruct res; reflexivity. Qed.

(** An operation whose inputs are accepted, on a reply with a success
    status whose body decodes: a body that is a failure text is handed
    back, anything else goes through the formatter, and an exception of the
    formatter through the handlers. *)
Lemma run_replied (cfg : Config) (backend : Backend) (op : operation)
    (log : list request) (method path : string) (render : value -> Exc string)
    (r : response) (v : value) :
  configured cfg ->
  first_blank (required_inputs op) = None ->
  route op = Some (method, path) ->
  formatter cfg op = Some render ->
  send backend log (request_of cfg method path None) = Reply r ->
  is_success r = true ->
  json_loads backend (text r) = Ok v ->
  run cfg backend op log
  = (if is_error v then str v
     else match render v with Ok s => s | Raise e => handler op e end,
     (log ++ [request_of cfg method path None])%list).
Proof.
  intros Hcfg Hreq Hroute Hfmt Hsend Hok Hjson.
  pose proof (route_method op method path Hroute) as Hm.
  pose proof (fun ep rd => call_api_replied cfg backend method ep rd log r v Hcfg Hm) as Hcall.
  destruct op; cbn [route] in Hroute; try discriminate Hroute;
    try (destruct (effective_limit limit) as [n|] eqn:Hlimit; [|discriminate Hroute]);
    injection Hroute as <- <-; cbn [formatter] in Hfmt; injection Hfmt as <-;
    cbn [required_inputs] in Hreq;
    try (apply blank_pair in Hreq; destruct Hreq as [Hblank _]);
    cbn [run handler]; unfold_operation; rewrite ?Hblank, ?try_lift, ?Hlimit;
    rewrite (try_except_value _ _ _ _ _ (Hcall _ _ Hsend Hok Hjson));
    destruct (is_error v); reflexivity.
Qed.




(** The result of an operation without a request body on a reply with a
    success status whose body decodes to [v]: [v] itself when it is a string
    that starts with the failure marker, else the text of the formatter, or
    the text of the handlers for the exception the formatter raises. *)
Theorem success_reply_result (cfg : Config) (backend : Backend) (op : operation)
    (log : list request) (method path : string) (render : value -> Exc string)
    (r : response) (v : value) :
  configured cfg ->
  first_blank (required_inputs op) = None ->
  route op = Some (method, path) ->
  formatter cfg op = Some render ->
  send backend log (request_of cfg method path None) = Reply r ->
  200 <= status_code r <= 299 ->
  json_loads backend (text r) = Ok v ->
  (forall s, v = VStr s -> startswith s marker = true ->
     fst (run cfg backend op log) = s)
  /\ (forall s, is_error v = false -> render v = Ok s ->
        fst (run cfg backend op log) = s)
  /\ (forall e, is_error v = false -> render v = Raise e ->
        fst (run cfg backend op log) = handler op e).
Proof.
  intros Hcfg Hreq Hroute Hfmt Hsend Hstatus Hjson.
  rewrite (run_replied cfg backend op log method path render r v
             Hcfg Hreq Hroute Hfmt Hsend (success_status r Hstatus) Hjson).
  cbn [fst]. repeat split.
  - intros s -> Hs. cbn [is_error]. rewrite Hs. reflexivity.
  - intros s -> ->. reflexivity.
  - intros e -> ->. reflexivity.
Qed.

Lemma success_reply_result_witness :
  fst (run demo_cfg (fixed_backend ok_reply (VStr "❌ maintenance")) GetAccountInfo [])
  = "❌ maintenance"
  /\ fst (run demo_cfg (fixed_backend ok_reply (VList [])) GetPortfolio [])
     = portfolio_empty
  /\ fst (run demo_cfg (fixed_backend ok_reply (VInt 7)) ListPies [])
     = "❌ Error: 'int' object is not iterable".
Proof.
  assert (Hcfg : configured demo_cfg) by (split; discriminate).
  assert (Hstatus : 200 <= 200 <= 299) by lia.
  split; [|split].
  - exact (proj1 (success_reply_result demo_cfg (fixed_backend ok_reply (VStr "❌ maintenance"))
                    GetAccountInfo [] "GET" "/equity/account/info" _
                    {| status_code := 200; text := "[]" |} _
                    Hcfg eq_refl eq_refl eq_refl eq_refl Hstatus eq_refl)
             "❌ maintenance" eq_refl eq_refl).
  - exact (proj1 (proj2 (success_reply_result demo_cfg (fixed_backend ok_reply (VList []))
                    GetPortfolio [] "GET" "/equity/portfolio" _
                    {| status_code := 200; text := "[]" |} _
                    Hcfg eq_refl eq_refl eq_refl eq_refl Hstatus eq_refl))
             portfolio_empty eq_refl eq_refl).
  - exact (proj2 (proj2 (success_reply_result demo_cfg (fixed_backend ok_reply (VInt 7))
                    ListPies [] "GET" "/equity/pies" _
                    {| status_code := 200; text := "[]" |} _
                    Hcfg eq_refl eq_refl eq_refl eq_refl Hstatus eq_refl))
             (Exn TypeError "'int' object is not iterable") eq_refl eq_refl).
Defined.

Lemma not_object_no_get (v : value) (k : string) (d : value) :
  is_object v = false ->
  get v k d = Raise (Exn AttributeError
                       (cat ["'"; type_name v; "' object has no attribute '"; "get"; "'"])).
Proof. destruct v; try discriminate; reflexivity. Qed.

(** A reply with a success status whose body is not an object (an array, a
    number, a string, null) makes the operations that read one object
    return the failure marker with the text of the [AttributeError]: no
    operation raises, and none shows a partial text. *)
Theorem non_object_payload_reported (cfg : Config) (backend : Backend) (op : operation)
    (log : list request) (method path : string) (r : response) (v : value) :
  configured cfg ->
  expects_object op = true ->
  first_blank (required_inputs op) = None ->
  route op = Some (method, path) ->
  send backend log (request_of cfg method path None) = Reply r ->
  200 <= status_code r <= 299 ->
  json_loads backend (text r) = Ok v ->
  is_object v = false ->
  is_error v = false ->
  fst (run cfg backend op log) = no_get_text v.
Proof.
  intros Hcfg Hobj Hreq Hroute Hsend Hstatus Hjson Hv Herr.
  destruct op; try discriminate Hobj;
    (erewrite run_replied;
     [ | exact Hcfg | exact Hreq | exact Hroute | reflexivity | exact Hsend
       | exact (success_status r Hstatus) | exact Hjson ]);
    cbn [fst]; rewrite Herr;
    destruct v; try discriminate Hv; reflexivity.
Qed.

Lemma non_object_payload_reported_witness :
  fst (run demo_cfg (fixed_backend ok_reply (VList [VInt 1])) GetAccountInfo [])
  = "❌ Error: 'list' object has no attribute 'get'".
Proof.
  assert (Hcfg : configured demo_cfg) by (split; discriminate).
  assert (Hstatus : 200 <= 200 <= 299) by lia.
  exact (non_object_payload_reported demo_cfg (fixed_backend ok_reply (VList [VInt 1]))
           GetAccountInfo [] "GET" "/equity/account/info"
           {| status_code := 200; text := "[]" |} (VList [VInt 1])
           Hcfg eq_refl eq_refl eq_refl eq_refl Hstatus eq_refl eq_refl eq_refl).
Defined.

(** ** Placing orders *)






(** ** Exceptions of the formatters *)





Lemma mapM_raises {A B : Type} (f : A -> Exc B) (l : list A) (e : exn) :
  mapM f l = Raise e -> exists a, In a l /\ f a = Raise e.
Proof.
  induction l as [|a l IH]; simpl; [discriminate|]. unfold bind.
  destruct (f a) as [b|e'] eqn:Ea.
  - destruct (mapM f l) as [bs|e'']; [discriminate|].
    intros H. injection H as ->. destruct (IH eq_refl) as (x & Hin & Hx).
    exists x. split; [now right | exact Hx].
  - intros H. injection H as ->. exists a. split; [now left | exact Ea].
Qed.













(** ** Empty and incomplete payloads *)

(** A payload that Python counts as false (null, an empty array, an empty
    object, zero, an empty string) is answered with the message for an
    empty result by every list operation, without a look at its type; so is
    a history page without items. *)
Theorem empty_payload_messages (cfg : Config) (v : value) :
  (truthy v = false ->
     portfolio_text cfg v = Ok portfolio_empty
     /\ exchanges_text v = Ok exchanges_empty
     /\ active_orders_text cfg v = Ok active_orders_empty
     /\ pies_text cfg v = Ok pies_empty
     /\ order_history_text cfg v = Ok order_history_empty
     /\ dividends_text cfg v = Ok dividends_empty
     /\ transactions_text cfg v = Ok transactions_empty)
  /\ (forall d items,
        v = VDict d -> d <> [] ->
        get v "items" VNone = Ok items -> truthy items = false ->
        order_history_text cfg v = Ok order_history_empty
        /\ dividends_text cfg v = Ok dividends_empty
        /\ transactions_text cfg v = Ok transactions_empty).
Proof.
  split.
  - intros H.
    unfold portfolio_text, exchanges_text, active_orders_text, pies_text,
      order_history_text, dividends_text, transactions_text, no_items.
    rewrite H. repeat split.
  - intros d items -> Hd Hget Hitems.
    unfold order_history_text, dividends_text, transactions_text, no_items.
    assert (Ht : truthy (VDict d) = true) by (destruct d; [now elim Hd | reflexivity]).
    rewrite Ht. cbn [negb]. rewrite Hget. cbn [bind]. rewrite Hitems. repeat split.
Qed.

Lemma empty_payload_messages_witness :
  portfolio_text demo_cfg VNone = Ok portfolio_empty
  /\ order_history_text demo_cfg (VDict [("items", VList []); ("nextPagePath", VNone)])
     = Ok order_history_empty.
Proof.
  split.
  - exact (proj1 (proj1 (empty_payload_messages demo_cfg VNone) eq_refl)).
  - refine (proj1 (proj2 (empty_payload_messages demo_cfg
                            (VDict [("items", VList []); ("nextPagePath", VNone)]))
                     [("items", VList []); ("nextPagePath", VNone)] (VList [])
                     eq_refl _ eq_refl eq_refl)).
    discriminate.
Defined.

Lemma lookup_get (d : list (string * value)) (k : string) (default : value) :
  get (VDict d) k default
  = Ok (match lookup k d with Some x => x | None => default end).
Proof. reflexivity. Qed.


(** ** More on the instrument search *)





(** ** Exchanges *)

Lemma schedule_lines_total (schedules : list value) :
  Forall (fun s => is_object s = true) schedules ->
  exists lines,
    mapM schedule_line schedules = Ok lines
    /\ Forall2 (fun s line => schedule_line s = Ok line) schedules lines.
Proof.
  intros H.
  assert (Ht : Forall (fun s => exists line, schedule_line s = Ok line) schedules).
  { apply (Forall_impl _ (P := fun s => is_object s = true)); [|exact H].
    intros s Hs. destruct s; try discriminate Hs. eexists. reflexivity. }
  destruct (mapM_total schedule_line schedules Ht) as [lines Hl].
  exists lines. split; [exact Hl | exact (mapM_Forall2 _ _ _ Hl)].
Qed.

(** An exchange is shown with at most three of its working schedules, the
    first three in order; the others are left out without a note. *)
Theorem exchange_shows_three_schedules (d : list (string * value))
    (schedules : list value) :
  lookup "workingSchedules" d = Some (VList schedules) ->
  schedules <> [] ->
  Forall (fun s => is_object s = true) schedules ->
  exists name exchange_id lines,
    get (VDict d) "name" NA = Ok name
    /\ get (VDict d) "id" NA = Ok exchange_id
    /\ Forall2 (fun s line => schedule_line s = Ok line) (firstn 3 schedules) lines
    /\ List.length lines = Nat.min 3 (List.length schedules)
    /\ exchange_entry (VDict d)
       = Ok (cat ["📍 "; str name; " (ID: "; str exchange_id; ")"; nl;
                  "   Trading Hours:" ++ nl ++ cat lines; nl]).
Proof.
  intros Hlookup Hsome Hall.
  destruct (schedule_lines_total (firstn 3 schedules)
              (Forall_firstn _ 3 schedules Hall)) as (lines & Hlines & H2).
  eexists _, _, lines. split; [reflexivity|]. split; [reflexivity|].
  split; [exact H2|]. split.
  - rewrite <- (Forall2_length H2). apply length_firstn.
  - unfold exchange_entry. rewrite !lookup_get, Hlookup. cbn [bind].
    assert (Ht : truthy (VList schedules) = true)
      by (destruct schedules; [now elim Hsome | reflexivity]).
    rewrite Ht. cbn [slice_to bind iter]. rewrite Hlines. reflexivity.
Qed.

Lemma exchange_shows_three_schedules_witness :
  exists lines,
    List.length lines = 3%nat
    /\ exchange_entry
         (VDict [("name", VStr "LSE");
                 ("workingSchedules", VList (map schedule [1; 2; 3; 4; 5]))])
       = Ok (cat ["📍 "; "LSE"; " (ID: "; "N/A"; ")"; nl;
                  "   Trading Hours:" ++ nl ++ cat lines; nl]).
Proof.
  destruct (exchange_shows_three_schedules
              [("name", VStr "LSE"); ("workingSchedules", VList (map schedule [1; 2; 3; 4; 5]))]
              (map schedule [1; 2; 3; 4; 5]) eq_refl)
    as (name & exchange_id & lines & Hname & Hid & _ & Hlen & Htext).
  - discriminate.
  - repeat constructor.
  - apply Ok_inj in Hname, Hid. subst name exchange_id.
    exists lines. split; [exact Hlen | exact Htext].
Defined.

(** ** Dividends *)




(** ** Numbers that are not numbers *)

(** A payload field that should be a number and is not (a string, null, an
    array) is not read as zero where the code computes with it: the dividend
    total and the return percentage raise a [TypeError], which makes the
    operation return a failure text. *)
Theorem malformed_number_raises :
  (forall fields amount rest output total,
     lookup "amount" fields = Some amount ->
     as_num amount = None ->
     dividend_loop (VDict fields :: rest) output (VInt total)
     = Raise (Exn TypeError
                (cat ["unsupported operand type(s) for +=: 'int' and '";
                      type_name amount; "'"])))
  /\ (forall ppl avg_price quantity cost,
        as_num ppl = None ->
        mul avg_price quantity = Ok cost ->
        gt_int cost 0 = Ok true ->
        return_percent ppl avg_price quantity
        = Raise (Exn TypeError
                   (cat ["unsupported operand type(s) for /: '"; type_name ppl;
                         "' and '"; type_name cost; "'"]))).
Proof.
  split.
  - intros fields amount rest output total Hamount Hnum.
    cbn [dividend_loop]. rewrite !lookup_get, Hamount. cbn [bind].
    unfold iadd. rewrite Hnum. reflexivity.
  - intros ppl avg_price quantity cost Hnum Hmul Hgt.
    rewrite (return_percent_positive ppl avg_price quantity cost Hmul Hgt).
    unfold div. rewrite Hnum. reflexivity.
Qed.

Lemma malformed_number_raises_witness :
  dividends_text demo_cfg
    (VDict [("items", VList [VDict [("amount", VStr "1.50")]])])
  = Raise (Exn TypeError "unsupported operand type(s) for +=: 'int' and 'str'")
  /\ return_percent (VStr "5") (VInt 10) (VInt 2)
     = Raise (Exn TypeError "unsupported operand type(s) for /: 'str' and 'int'").
Proof.
  destruct malformed_number_raises as [Hdiv Hret].
  split.
  - unfold dividends_text. cbn [no_items truthy negb bind get lookup String.eqb iter].
    vm_compute. reflexivity.
  - exact (Hret (VStr "5") (VInt 10) (VInt 2) (VInt 20) eq_refl eq_refl eq_refl).
Defined.

(** ** The history limit, below the cap *)



(** ** Start-up without credentials *)

(** When the process environment lacks the API key or the API secret, or
    holds an empty one, the configuration it yields makes no operation
    issue a request. *)
Theorem missing_credentials_block_every_operation (environ : string -> option string)
    (backend : Backend) (op : operation) (log : list request) :
  environ "TRADING212_API_KEY" = None \/ environ "TRADING212_API_KEY" = Some ""
  \/ environ "TRADING212_API_SECRET" = None \/ environ "TRADING212_API_SECRET" = Some "" ->
  snd (run (load_config environ) backend op log) = log.
Proof.
  intros H.
  assert (Hcfg : API_KEY (load_config environ) = "" \/ API_SECRET (load_config environ) = "").
  { unfold load_config, environ_get. cbn [API_KEY API_SECRET].
    destruct H as [-> | [-> | [-> | ->]]]; auto. }
  destruct op; unfold_operation; split_checks;
    rewrite ?(call_api_unconfigured _ backend Hcfg); reflexivity.
Qed.

Lemma missing_credentials_block_every_operation_witness :
  snd (run (load_config no_environ) (fixed_backend ok_reply VNone) GetPortfolio []) = [].
Proof.
  apply missing_credentials_block_every_operation. left. reflexivity.
Defined.

(** ** The credential header *)

Lemma b64_char_value (k : Z) :
  0 <= k < 64 ->
  exists c, b64_char k = one c /\ b64_value c = Some k /\ Ascii.eqb c pad = false.
Proof.
  intros [H0 H64]. destruct k as [|p|p]; try lia.
  - eexists. repeat split; reflexivity.
  - do 6 (try (destruct p as [p|p|]; try lia));
      eexists; (split; [reflexivity | split; reflexivity]).
Qed.

Lemma code_bounds (c : ascii) : 0 <= code c < 256.
Proof.
  unfold code. pose proof (nat_ascii_bounded c). lia.
Qed.

Lemma byte_code (c : ascii) : byte (code c) = c.
Proof. unfold byte, code. rewrite Nat2Z.id. apply ascii_nat_embedding. Qed.

Lemma string_ind3 (P : string -> Prop) :
  P "" ->
  (forall a, P (String a "")) ->
  (forall a b, P (String a (String b ""))) ->
  (forall a b c s, P s -> P (String a (String b (String c s)))) ->
  forall s, P s.
Proof.
  intros H0 H1 H2 H3.
  fix IH 1. intros [|a [|b [|c s]]];
    [exact H0 | exact (H1 a) | exact (H2 a b) | exact (H3 a b c s (IH s))].
Qed.

Lemma sextets (x y z : Z) :
  0 <= x < 256 -> 0 <= y < 256 -> 0 <= z < 256 ->
  let n := x * 65536 + y * 256 + z in
  0 <= n / 262144 < 64
  /\ n / 262144 * 4 + n / 4096 mod 64 / 16 = x
  /\ n / 4096 mod 64 mod 16 * 16 + n / 64 mod 64 / 4 = y
  /\ n / 64 mod 64 mod 4 * 64 + n mod 64 = z.
Proof.
  intros Hx Hy Hz n. subst n. repeat split; Z.div_mod_to_equations; lia.
Qed.

Lemma sextets_of_two (x y : Z) :
  0 <= x < 256 -> 0 <= y < 256 ->
  let n := x * 65536 + y * 256 in
  0 <= n / 262144 < 64
  /\ n / 262144 * 4 + n / 4096 mod 64 / 16 = x
  /\ n / 4096 mod 64 mod 16 * 16 + n / 64 mod 64 / 4 = y.
Proof.
  intros Hx Hy n. subst n. repeat split; Z.div_mod_to_equations; lia.
Qed.

Lemma sextets_of_one (x : Z) :
  0 <= x < 256 ->
  let n := x * 65536 in
  0 <= n / 262144 < 64 /\ n / 262144 * 4 + n / 4096 mod 64 / 16 = x.
Proof.
  intros Hx n. subst n. repeat split; Z.div_mod_to_equations; lia.
Qed.

Lemma mod64_bounds (n : Z) : 0 <= n mod 64 < 64.
Proof. apply Z.mod_pos_bound. lia. Qed.

(** Decoding undoes encoding. *)
Lemma b64_round_trip (s : string) : b64decode (b64encode s) = Some s.
Proof.
  induction s as [|a|a b|a b c s IH] using string_ind3.
  - reflexivity.
  - destruct (sextets_of_one (code a) (code_bounds a)) as (B1 & E1).
    cbn [b64encode]. cbv zeta in *.
    destruct (b64_char_value _ B1) as (c1 & -> & V1 & _).
    destruct (b64_char_value _ (mod64_bounds (code a * 65536 / 4096)))
      as (c2 & -> & V2 & _).
    cbn [cat append one b64decode]. rewrite V1, V2.
    change (Ascii.eqb "=" pad) with true. cbv iota. rewrite E1, byte_code. reflexivity.
  - destruct (sextets_of_two (code a) (code b) (code_bounds a) (code_bounds b))
      as (B1 & E1 & E2).
    cbn [b64encode]. cbv zeta in *.
    destruct (b64_char_value _ B1) as (c1 & -> & V1 & _).
    destruct (b64_char_value _ (mod64_bounds ((code a * 65536 + code b * 256) / 4096)))
      as (c2 & -> & V2 & _).
    destruct (b64_char_value _ (mod64_bounds ((code a * 65536 + code b * 256) / 64)))
      as (c3 & -> & V3 & P3).
    cbn [cat append one b64decode]. rewrite V1, V2, P3, V3.
    change (Ascii.eqb "=" pad) with true. cbv iota. rewrite E1, E2, !byte_code.
    reflexivity.
  - destruct (sextets (code a) (code b) (code c)
                (code_bounds a) (code_bounds b) (code_bounds c)) as (B1 & E1 & E2 & E3).
    cbn [b64encode]. cbv zeta in *.
    destruct (b64_char_value _ B1) as (c1 & -> & V1 & _).
    destruct (b64_char_value _
                (mod64_bounds ((code a * 65536 + code b * 256 + code c) / 4096)))
      as (c2 & -> & V2 & _).
    destruct (b64_char_value _
                (mod64_bounds ((code a * 65536 + code b * 256 + code c) / 64)))
      as (c3 & -> & V3 & P3).
    destruct (b64_char_value _ (mod64_bounds (code a * 65536 + code b * 256 + code c)))
      as (c4 & -> & V4 & P4).
    cbn [cat append one b64decode]. rewrite V1, V2, P3, V3, P4, V4, IH.
    rewrite E1, E2, E3, !byte_code. reflexivity.
Qed.

Lemma b64_char_length (k : Z) : String.length (b64_char k) = 1%nat.
Proof. unfold b64_char. destruct (String.get _ _); reflexivity. Qed.

Lemma length_append (a b : string) :
  String.length (a ++ b) = (String.length a + String.length b)%nat.
Proof. induction a as [|c a IH]; simpl; [reflexivity | now rewrite IH]. Qed.

(** The encoding of [n] bytes has [4 * ceil (n / 3)] characters. *)
Lemma b64_length (s : string) :
  String.length (b64encode s) = (4 * ((String.length s + 2) / 3))%nat.
Proof.
  induction s as [|a|a b|a b c s IH] using string_ind3; try reflexivity.
  - cbn [b64encode cat]. rewrite !length_append, !b64_char_length. reflexivity.
  - cbn [b64encode cat]. rewrite !length_append, !b64_char_length. reflexivity.
  - cbn [b64encode cat]. rewrite !length_append, !b64_char_length, IH.
    cbn [String.length].
    replace (S (S (S (String.length s))) + 2)%nat with (String.length s + 2 + 1 * 3)%nat by lia.
    rewrite Nat.div_add by lia. simpl String.length. lia.
Qed.

(** The credential header is empty when a credential is missing.
    Otherwise it is [Basic ] followed by the standard base64 of
    [key:secret]: decoding it gives [key:secret] back, and its length is
    four characters for every three bytes, rounded up. *)
Theorem auth_header_round_trip (cfg : Config) :
  (API_KEY cfg = "" \/ API_SECRET cfg = "" -> get_auth_header cfg = "")
  /\ (configured cfg ->
      exists encoded,
        get_auth_header cfg = "Basic " ++ encoded
        /\ b64decode encoded = Some (API_KEY cfg ++ ":" ++ API_SECRET cfg)
        /\ String.length encoded
           = (4 * ((String.length (API_KEY cfg ++ ":" ++ API_SECRET cfg) + 2) / 3))%nat).
Proof.
  unfold get_auth_header. split.
  - intros [-> | ->]; [reflexivity|]. cbn [PyStr.truthy negb]. now rewrite orb_true_r.
  - intros Hcfg. rewrite (configured_passes cfg Hcfg).
    exists (b64encode (API_KEY cfg ++ ":" ++ API_SECRET cfg)).
    split; [reflexivity|]. split; [apply b64_round_trip | apply b64_length].
Qed.

Lemma auth_header_round_trip_witness :
  get_auth_header no_key_cfg = ""
  /\ exists encoded,
       get_auth_header demo_cfg = "Basic " ++ encoded
       /\ b64decode encoded = Some "key:secret"
       /\ String.length encoded = 16%nat.
Proof.
  split.
  - exact (proj1 (auth_header_round_trip no_key_cfg) (or_introl eq_refl)).
  - apply (proj2 (auth_header_round_trip demo_cfg)). split; discriminate.
Defined.

(** ** Failure texts and the marker *)

Lemma to_float_str_parsed (s : string) (f : PyFloat.float) :
  to_float (VStr s) = Ok f -> PyParse.parse_float s = Some f.
Proof.
  unfold to_float. destruct (PyParse.parse_float s); [|discriminate].
  intros H. now injection H as ->.
Qed.

(** Failure is visible from the first character.  Whatever the inputs, the
    configuration and the behaviour of the server, a result that does not
    start with the failure marker is the text the formatter of the
    operation made of some value: every other outcome (a rejected input,
    missing credentials, a transport failure, a status that is not a
    success, a body that does not decode, an exception of the formatter)
    starts with the marker. *)
Theorem unmarked_result_is_formatted (cfg : Config) (backend : Backend) (op : operation)
    (log log' : list request) (result : string) :
  run cfg backend op log = (result, log') ->
  success result = true ->
  exists render v, formatter cfg op = Some render /\ render v = Ok result.
Proof.
  intros Hrun Hs. destruct op; cbn [run formatter] in *.
  - unfold get_account_info in Hrun. rendered Hrun Hs v Hv. now eexists _, v.
  - unfold get_account_cash in Hrun. rendered Hrun Hs v Hv. now eexists _, v.
  - unfold get_portfolio in Hrun. rendered Hrun Hs v Hv. now eexists _, v.
  - unfold get_position in Hrun. destruct (blank ticker); [early_return Hrun Hs|].
    rendered Hrun Hs v Hv. now eexists _, v.
  - unfold list_exchanges in Hrun. rendered Hrun Hs v Hv. now eexists _, v.
  - unfold search_instruments in Hrun. destruct (blank query); [early_return Hrun Hs|].
    rendered Hrun Hs v Hv. now eexists _, v.
  - unfold get_active_orders in Hrun. rendered Hrun Hs v Hv. now eexists _, v.
  - unfold get_order in Hrun. destruct (blank order_id); [early_return Hrun Hs|].
    rendered Hrun Hs v Hv. now eexists _, v.
  - unfold place_market_order in Hrun.
    destruct (blank ticker); [early_return Hrun Hs|].
    destruct (blank quantity); [early_return Hrun Hs|].
    rewrite try_lift in Hrun.
    destruct (to_float (VStr quantity)) as [q|] eqn:Hq; [|raised Hrun Hs].
    rewrite (to_float_str_parsed _ _ Hq).
    rendered Hrun Hs v Hv. now eexists _, v.
  - unfold place_limit_order in Hrun.
    destruct (blank ticker); [early_return Hrun Hs|].
    destruct (blank quantity); [early_return Hrun Hs|].
    destruct (blank limit_price); [early_return Hrun Hs|].
    rewrite try_lift in Hrun.
    destruct (to_float (VStr quantity)) as [q|] eqn:Hq; [|raised Hrun Hs].
    rewrite try_lift in Hrun.
    destruct (to_float (VStr limit_price)) as [p|] eqn:Hp; [|raised Hrun Hs].
    rewrite (to_float_str_parsed _ _ Hq), (to_float_str_parsed _ _ Hp).
    rendered Hrun Hs v Hv. now eexists _, v.
  - unfold place_stop_order in Hrun.
    destruct (blank ticker); [early_return Hrun Hs|].
    destruct (blank quantity); [early_return Hrun Hs|].
    destruct (blank stop_price); [early_return Hrun Hs|].
    rewrite try_lift in Hrun.
    destruct (to_float (VStr quantity)) as [q|] eqn:Hq; [|raised Hrun Hs].
    rewrite try_lift in Hrun.
    destruct (to_float (VStr stop_price)) as [p|] eqn:Hp; [|raised Hrun Hs].
    rewrite (to_float_str_parsed _ _ Hq), (to_float_str_parsed _ _ Hp).
    rendered Hrun Hs v Hv. now eexists _, v.
  - unfold cancel_order in Hrun. destruct (blank order_id); [early_return Hrun Hs|].
    rendered Hrun Hs v Hv. now eexists _, v.
  - unfold get_order_history in Hrun. rewrite try_lift in Hrun.
    destruct (effective_limit limit); [|raised Hrun Hs].
    rendered Hrun Hs v Hv. now eexists _, v.
  - unfold get_dividends in Hrun. rewrite try_lift in Hrun.
    destruct (effective_limit limit); [|raised Hrun Hs].
    rendered Hrun Hs v Hv. now eexists _, v.
  - unfold get_transactions in Hrun. rewrite try_lift in Hrun.
    destruct (effective_limit limit); [|raised Hrun Hs].
    rendered Hrun Hs v Hv. now eexists _, v.
  - unfold list_pies in Hrun. rendered Hrun Hs v Hv. now eexists _, v.
  - unfold get_pie in Hrun. destruct (blank pie_id); [early_return Hrun Hs|].
    rendered Hrun Hs v Hv. now eexists _, v.
Qed.

Lemma unmarked_result_is_formatted_witness :
  exists render v,
    formatter demo_cfg GetPortfolio = Some render /\ render v = Ok portfolio_empty.
Proof.
  refine (unmarked_result_is_formatted demo_cfg (fixed_backend ok_reply (VList []))
            GetPortfolio [] _ portfolio_empty _ eq_refl).
  vm_compute. reflexivity.
Defined.

(** ** Lists are rendered whole or not at all *)

Lemma mapM_of_Forall2 {A B : Type} (f : A -> Exc B) (l : list A) (bs : list B) :
  Forall2 (fun a b => f a = Ok b) l bs -> mapM f l = Ok bs.
Proof.
  induction 1 as [|a b l bs Ha _ IH]; simpl; [reflexivity|].
  rewrite Ha, IH. reflexivity.
Qed.

Lemma list_text_whole (entry : value -> Exc string) (header tail : string)
    (items : list value) (text : string) :
  (entries <- mapM entry items ;; Ok ((header ++ cat entries) ++ tail))%exc = Ok text
  <-> exists entries,
        Forall2 (fun item e => entry item = Ok e) items entries
        /\ text = (header ++ cat entries) ++ tail.
Proof.
  unfold bind. split.
  - destruct (mapM entry items) as [entries|] eqn:E; [|discriminate].
    intros H. apply Ok_inj in H. exists entries. split; [now apply mapM_Forall2 | now symmetry].
  - intros (entries & H2 & ->). now rewrite (mapM_of_Forall2 _ _ _ H2).
Qed.

Lemma list_text_fails (entry : value -> Exc string) (header tail : string)
    (items : list value) (e : exn) :
  (entries <- mapM entry items ;; Ok ((header ++ cat entries) ++ tail))%exc = Raise e ->
  exists item, In item items /\ entry item = Raise e.
Proof.
  unfold bind. destruct (mapM entry items) as [entries|e'] eqn:E; [discriminate|].
  intros H. injection H as <-. exact (mapM_raises _ _ _ E).
Qed.

(** A list operation renders a non-empty array whole or not at all: its
    text is the head line, one entry for every element in the order of the
    array, and the environment line; and when it fails, it fails with the
    exception of one of the elements, however many were well formed. *)
Theorem list_rendered_whole_or_not (cfg : Config) (items : list value) :
  items <> [] ->
  (forall text,
     portfolio_text cfg (VList items) = Ok text
     <-> exists entries,
           Forall2 (fun item e => portfolio_entry item = Ok e) items entries
           /\ text = ("📊 Portfolio Positions:" ++ nl ++ nl ++ cat entries)
                       ++ environment_line cfg)
  /\ (forall text,
        active_orders_text cfg (VList items) = Ok text
        <-> exists entries,
              Forall2 (fun item e => active_order_entry item = Ok e) items entries
              /\ text = ("📋 Active Orders:" ++ nl ++ nl ++ cat entries)
                          ++ environment_line cfg)
  /\ (forall text,
        pies_text cfg (VList items) = Ok text
        <-> exists entries,
              Forall2 (fun item e => pie_entry item = Ok e) items entries
              /\ text = ("🥧 Investment Pies:" ++ nl ++ nl ++ cat entries)
                          ++ environment_line cfg)
  /\ (forall e,
        portfolio_text cfg (VList items) = Raise e ->
        exists item, In item items /\ portfolio_entry item = Raise e)
  /\ (forall e,
        active_orders_text cfg (VList items) = Raise e ->
        exists item, In item items /\ active_order_entry item = Raise e)
  /\ (forall e,
        pies_text cfg (VList items) = Raise e ->
        exists item, In item items /\ pie_entry item = Raise e).
Proof.
  intros Hsome.
  assert (Ht : truthy (VList items) = true) by (destruct items; [now elim Hsome | reflexivity]).
  unfold portfolio_text, active_orders_text, pies_text. rewrite Ht.
  cbn [negb iter bind].
  change (fun x => ?f x) with f.
  repeat split.
  - apply (list_text_whole portfolio_entry ("📊 Portfolio Positions:" ++ nl ++ nl)).
  - apply (list_text_whole portfolio_entry ("📊 Portfolio Positions:" ++ nl ++ nl)).
  - apply (list_text_whole active_order_entry ("📋 Active Orders:" ++ nl ++ nl)).
  - apply (list_text_whole active_order_entry ("📋 Active Orders:" ++ nl ++ nl)).
  - apply (list_text_whole pie_entry ("🥧 Investment Pies:" ++ nl ++ nl)).
  - apply (list_text_whole pie_entry ("🥧 Investment Pies:" ++ nl ++ nl)).
  - apply (list_text_fails portfolio_entry ("📊 Portfolio Positions:" ++ nl ++ nl)).
  - apply (list_text_fails active_order_entry ("📋 Active Orders:" ++ nl ++ nl)).
  - apply (list_text_fails pie_entry ("🥧 Investment Pies:" ++ nl ++ nl)).
Qed.

Lemma list_rendered_whole_or_not_witness :
  exists item,
    In item [open_position; VInt 3]
    /\ portfolio_entry item = Raise (Exn AttributeError "'int' object has no attribute 'get'").
Proof.
  refine (proj1 (proj2 (proj2 (proj2 (list_rendered_whole_or_not demo_cfg
                                        [open_position; VInt 3] _)))) _ _).
  - discriminate.
  - vm_compute. reflexivity.
Defined.
